(** * Spatial quantization codec (QParams / QPoint / QPointList)

    A shallow embedding of the quantization module: the [Quantization]
    namespace, the range-parameter records [QParams2d] / [QParams3d], the
    quantized points [QPoint2d] / [QPoint3d] and the point lists
    [QPoint2dList] / [QPoint3dList], followed by the properties of the
    specification that concern them, further properties of the module,
    and the title that a cluster of section-location markers is given.

    Numbers.  The source computes on JavaScript numbers.  Every finite
    number is a rational, and the embedding takes a number to be its exact
    rational value ([Q]); the arithmetic operators are the exact ones, so
    rounding of intermediate results, infinities and NaN are outside the
    model.  Strict equality [===] on numbers is [Qeq_bool]. *)

From Stdlib Require Import ZArith QArith Qround Qabs Lia Lqa Bool.
From Stdlib Require Import Floats.
From stdpp Require Import base list strings.

Local Open Scope Q_scope.

(** ** JavaScript numbers and the [Math] builtins the module uses *)

Abbreviation number := Q.

Module JS.

(** [a === b] on numbers. *)
Definition strict_eq (a b : number) : bool := Qeq_bool a b.

(** [a >= b] and [a < b] on numbers. *)
Definition ge (a b : number) : bool := Qle_bool b a.
Definition lt (a b : number) : bool := negb (Qle_bool b a).

End JS.

Module Math.

Definition floor (x : number) : number := inject_Z (Qfloor x).

Definition max (a b : number) : number := if Qle_bool a b then b else a.

Definition min (a b : number) : number := if Qle_bool a b then a else b.

End Math.

(** ** namespace Quantization *)

Module Quantization.

Definition rangeScale : number := 65535.  (* 0xffff *)

Definition computeScale (extent : number) : number :=
  if JS.strict_eq 0 extent then extent else rangeScale / extent.

Definition isInRange (qpos : number) : bool :=
  JS.ge qpos 0 && JS.lt qpos (rangeScale + 1).

Definition quantize (pos origin scale : number) : number :=
  Math.floor (Math.max 0 (Math.min rangeScale ((1 # 2) + (pos - origin) * scale))).

Definition isQuantizable (pos origin scale : number) : bool :=
  isInRange (quantize pos origin scale).

Definition unquantize (qpos origin scale : number) : number :=
  if JS.strict_eq 0 scale then origin else origin + qpos / scale.

Definition isQuantized (qpos : number) : bool :=
  isInRange qpos && JS.strict_eq qpos (Math.floor qpos).

End Quantization.

(** The formula of the specification for [quantize], written from its
    words: [floor(clamp(0, 65535, 0.5 + (pos - origin) * scale))], where
    [clamp lo hi v] saturates [v] into the interval from [lo] to [hi]. *)

Definition clamp (lo hi v : number) : number :=
  if Qlt_le_dec v lo then lo else if Qlt_le_dec hi v then hi else v.

Definition spec_quantize (pos origin scale : number) : Z :=
  Qfloor (clamp 0 65535 ((1 # 2) + (pos - origin) * scale)).

(** ** Exceptions and assertions *)

Inductive exception : Type :=
| AssertionError   (* thrown by a failed [assert] *)
| TypeError.       (* a member access on [undefined] *)

(** What running a method gives: a value, an exception, or no answer within
    the number of loop iterations allowed. *)
Inductive outcome (A : Type) : Type :=
| Return (a : A)
| Throw (e : exception)
| OutOfFuel.

Arguments Return {A} a.
Arguments Throw {A} e.
Arguments OutOfFuel {A}.

#[global] Instance outcome_ret : MRet outcome := @Return.

#[global] Instance outcome_bind : MBind outcome := λ A B f m,
  match m with
  | Return a => f a
  | Throw e => Throw e
  | OutOfFuel => OutOfFuel
  end.

(** Modelled from the spec: [assert] of bentleyjs-core is not among the
    sources.  The specification describes assertions as fatal in a debug
    build and compiled out (a no-op) in a release build, so the embedding
    carries the build mode as [assertionsEnabled]: a failed assertion throws
    when it is set and does nothing otherwise. *)
Definition assert (assertionsEnabled : bool) (condition : bool) : outcome unit :=
  if assertionsEnabled && negb condition then Throw AssertionError else Return tt.

(** [for (let i = start; cond(i); i++) body(i)] over a state [S]. *)
Fixpoint for_loop {S : Type} (fuel : nat) (cond : nat → S → bool)
    (body : nat → S → outcome S) (i : nat) (s : S) : outcome S :=
  if cond i s then
    match fuel with
    | O => OutOfFuel
    | Datatypes.S fuel' => s' ← body i s; for_loop fuel' cond body (i + 1)%nat s'
    end
  else Return s.

(** [a[i]] for an array [a] and a number [i]: an element when [i] is a
    non-negative integer below the length, [undefined] otherwise. *)
Definition array_get {A : Type} (a : list A) (i : number) : option A :=
  if Qle_bool 0 i && JS.strict_eq i (Math.floor i) then a !! Z.to_nat (Qfloor i) else None.

(** *** Uint16Array *)

(** The conversion applied when a number is stored in a [Uint16Array]:
    truncate towards zero, then reduce modulo 2^16. *)
Definition ToUint16 (v : number) : Z :=
  ((if Qle_bool 0 v then Qfloor v else Qceiling v) mod 65536)%Z.

Module Uint16Array.

Abbreviation t := (list Z).

(** [new Uint16Array(n)]: [n] zeros. *)
Definition new (n : nat) : t := replicate n 0%Z.

(** [array[k] = v]; a store outside the array is ignored. *)
Definition set (k : nat) (v : number) (array : t) : t := <[k := ToUint16 v]> array.

End Uint16Array.

(** ** Points and ranges of geometry-core *)

(** Modelled from the spec: [Point2d], [Point3d], [Range2d] and [Range3d]
    of geometry-core are not among the sources.  A point is its
    coordinates, [new Point2d()] is the zero point; a range is, in the
    words of the specification, "two corner points (low, high) plus an
    explicit validity flag", read by the module as [isNull]. *)

Module Point2d.
Record t : Type := create { x : number; y : number }.
Definition new : t := create 0 0.
Definition set_x (v : number) (this : t) : t := create v (y this).
Definition set_y (v : number) (this : t) : t := create (x this) v.
End Point2d.

Module Point3d.
Record t : Type := create { x : number; y : number; z : number }.
Definition new : t := create 0 0 0.
Definition set_x (v : number) (this : t) : t := create v (y this) (z this).
Definition set_y (v : number) (this : t) : t := create (x this) v (z this).
Definition set_z (v : number) (this : t) : t := create (x this) (y this) v.
End Point3d.

Module Range2d.
Record t : Type := mk { low : Point2d.t; high : Point2d.t; isNull : bool }.
End Range2d.

Module Range3d.
Record t : Type := mk { low : Point3d.t; high : Point3d.t; isNull : bool }.
End Range3d.

(** ** class QParams2d *)

Module QParams2d.

Record t : Type := mk { origin : Point2d.t; scale : Point2d.t }.

Definition setFrom (ox oy sx sy : number) (this : t) : t :=
  let o := Point2d.set_y oy (Point2d.set_x ox (origin this)) in
  let s := Point2d.set_y sy (Point2d.set_x sx (scale this)) in
  mk o s.

(** The private constructor with its default arguments. *)
Definition new : t := setFrom 0 0 0 0 (mk Point2d.new Point2d.new).

Definition copyFrom (src : t) (this : t) : t :=
  setFrom (Point2d.x (origin src)) (Point2d.y (origin src))
          (Point2d.x (scale src)) (Point2d.y (scale src)) this.

Definition clone (this : t) (out : option t) : t :=
  let result := default new out in
  copyFrom this result.

Definition setFromRange (range : Range2d.t) (this : t) : t :=
  if negb (Range2d.isNull range) then
    setFrom (Point2d.x (Range2d.low range)) (Point2d.y (Range2d.low range))
      (Quantization.computeScale (Point2d.x (Range2d.high range) - Point2d.x (Range2d.low range)))
      (Quantization.computeScale (Point2d.y (Range2d.high range) - Point2d.y (Range2d.low range)))
      this
  else
    mk (Point2d.set_y 0 (Point2d.set_x 0 (origin this)))
       (Point2d.set_y 0 (Point2d.set_x 0 (scale this))).

Definition fromRange (range : Range2d.t) (out : option t) : t :=
  let params := default new out in
  setFromRange range params.

(** [Range2d.createArray] of the two corner points is the range they span. *)
Definition fromNormalizedRange : t :=
  fromRange (Range2d.mk (Point2d.create (-1) (-1)) (Point2d.create 1 1) false) None.

Definition fromZeroToOne : t :=
  fromRange (Range2d.mk (Point2d.create 0 0) (Point2d.create 1 1) false) None.

End QParams2d.

(** ** class QPoint2d *)

Module QPoint2d.

Record t : Type := mk { _x : number; _y : number }.

Definition x (this : t) : number := _x this.
Definition y (this : t) : number := _y this.

(** The private constructor: both fields start at 0. *)
Definition new : t := mk 0 0.

Section Methods.
Variable assertionsEnabled : bool.

Definition set_x (v : number) (this : t) : outcome t :=
  assert assertionsEnabled (Quantization.isQuantized v) ;; Return (mk v (_y this)).

Definition set_y (v : number) (this : t) : outcome t :=
  assert assertionsEnabled (Quantization.isQuantized v) ;; Return (mk (_x this) v).

Definition init (pos : Point2d.t) (params : QParams2d.t) (this : t) : outcome t :=
  this ← set_x (Quantization.quantize (Point2d.x pos)
                  (Point2d.x (QParams2d.origin params)) (Point2d.x (QParams2d.scale params))) this;
  set_y (Quantization.quantize (Point2d.y pos)
           (Point2d.y (QParams2d.origin params)) (Point2d.y (QParams2d.scale params))) this.

Definition create (pos : Point2d.t) (params : QParams2d.t) : outcome t :=
  let qpt := new in
  init pos params qpt.

Definition copyFrom (src : t) (this : t) : outcome t :=
  this ← set_x (x src) this;
  set_y (y src) this.

Definition clone (this : t) (out : option t) : outcome t :=
  let result := default new out in
  copyFrom this result.

Definition setFromScalars (x y : number) (this : t) : outcome t :=
  this ← set_x x this;
  set_y y this.

Definition fromScalars (x y : number) : outcome t :=
  let pt := new in
  setFromScalars x y pt.

End Methods.

Definition unquantize (this : t) (params : QParams2d.t) (out : option Point2d.t) : Point2d.t :=
  let pt := default Point2d.new out in
  let pt := Point2d.set_x (Quantization.unquantize (x this)
              (Point2d.x (QParams2d.origin params)) (Point2d.x (QParams2d.scale params))) pt in
  let pt := Point2d.set_y (Quantization.unquantize (y this)
              (Point2d.y (QParams2d.origin params)) (Point2d.y (QParams2d.scale params))) pt in
  pt.

End QPoint2d.

(** ** class QPoint2dList *)

Module QPoint2dList.

Record t : Type := mk { params : QParams2d.t; _list : list QPoint2d.t }.

Definition new (params : QParams2d.t) : t := mk (QParams2d.clone params None) [].

Definition clear (this : t) : t := mk (params this) [].

Definition reset (params' : QParams2d.t) (this : t) : t :=
  let this := clear this in
  mk (QParams2d.copyFrom params' (params this)) (_list this).

Definition length (this : t) : nat := List.length (_list this).

Section Methods.
Variable assertionsEnabled : bool.

Definition add (pt : Point2d.t) (this : t) : outcome t :=
  qpt ← QPoint2d.create assertionsEnabled pt (params this);
  Return (mk (params this) (_list this ++ [qpt])).

Definition push (qpt : QPoint2d.t) (this : t) : outcome t :=
  qpt ← QPoint2d.clone assertionsEnabled qpt None;
  Return (mk (params this) (_list this ++ [qpt])).

(** Returns the point together with the list, which it only reads. *)
Definition unquantize (index : number) (out : option Point2d.t) (this : t)
    : outcome (Point2d.t * t) :=
  assert assertionsEnabled (JS.lt index (inject_Z (Z.of_nat (length this)))) ;;
  if JS.lt index (inject_Z (Z.of_nat (length this))) then
    match array_get (_list this) index with
    | Some qpt => Return (QPoint2d.unquantize qpt (params this) out, this)
    | None => Throw TypeError
    end
  else
    Return (default Point2d.new out, this).

Definition requantize_body (params' : QParams2d.t) (i : nat) (this : t) : outcome t :=
  '(pt, this) ← unquantize (inject_Z (Z.of_nat i)) None this;
  match _list this !! i with
  | Some qpt =>
      qpt ← QPoint2d.init assertionsEnabled pt params' qpt;
      Return (mk (params this) (<[i := qpt]> (_list this)))
  | None => Throw TypeError
  end.

Definition requantize (params' : QParams2d.t) (this : t) : outcome t :=
  this ← for_loop (length this) (λ i this, Nat.ltb i (length this))
           (requantize_body params') 0 this;
  Return (mk (QParams2d.copyFrom params' (params this)) (_list this)).

End Methods.

Definition toTypedArray_body (pts : list QPoint2d.t) (i : nat) (array : Uint16Array.t)
    : outcome Uint16Array.t :=
  match pts !! i with
  | Some pt =>
      let array := Uint16Array.set (i * 2) (QPoint2d.x pt) array in
      let array := Uint16Array.set (i * 2 + 1) (QPoint2d.y pt) array in
      Return array
  | None => Throw TypeError
  end.

Definition toTypedArray (this : t) : outcome Uint16Array.t :=
  let array := Uint16Array.new (length this * 2) in
  let pts := _list this in
  for_loop (length this) (λ i _, Nat.ltb i (length this)) (toTypedArray_body pts) 0 array.

End QPoint2dList.

(** ** class QParams3d *)

Module QParams3d.

Record t : Type := mk { origin : Point3d.t; scale : Point3d.t }.

Definition setFrom (ox oy oz sx sy sz : number) (this : t) : t :=
  let o := Point3d.set_z oz (Point3d.set_y oy (Point3d.set_x ox (origin this))) in
  let s := Point3d.set_z sz (Point3d.set_y sy (Point3d.set_x sx (scale this))) in
  mk o s.

Definition new : t := setFrom 0 0 0 0 0 0 (mk Point3d.new Point3d.new).

Definition copyFrom (src : t) (this : t) : t :=
  setFrom (Point3d.x (origin src)) (Point3d.y (origin src)) (Point3d.z (origin src))
          (Point3d.x (scale src)) (Point3d.y (scale src)) (Point3d.z (scale src)) this.

Definition clone (this : t) (out : option t) : t :=
  let result := default new out in
  copyFrom this result.

Definition setFromRange (range : Range3d.t) (this : t) : t :=
  if negb (Range3d.isNull range) then
    setFrom (Point3d.x (Range3d.low range)) (Point3d.y (Range3d.low range))
      (Point3d.z (Range3d.low range))
      (Quantization.computeScale (Point3d.x (Range3d.high range) - Point3d.x (Range3d.low range)))
      (Quantization.computeScale (Point3d.y (Range3d.high range) - Point3d.y (Range3d.low range)))
      (Quantization.computeScale (Point3d.z (Range3d.high range) - Point3d.z (Range3d.low range)))
      this
  else
    mk (Point3d.set_z 0 (Point3d.set_y 0 (Point3d.set_x 0 (origin this))))
       (Point3d.set_z 0 (Point3d.set_y 0 (Point3d.set_x 0 (scale this)))).

Definition fromRange (range : Range3d.t) (out : option t) : t :=
  let params := default new out in
  setFromRange range params.

Definition fromNormalizedRange : t :=
  fromRange (Range3d.mk (Point3d.create (-1) (-1) (-1)) (Point3d.create 1 1 1) false) None.

Definition fromZeroToOne : t :=
  fromRange (Range3d.mk (Point3d.create 0 0 0) (Point3d.create 1 1 1) false) None.

End QParams3d.

(** ** class QPoint3d *)

Module QPoint3d.

Record t : Type := mk { _x : number; _y : number; _z : number }.

Definition x (this : t) : number := _x this.
Definition y (this : t) : number := _y this.
Definition z (this : t) : number := _z this.

Definition new : t := mk 0 0 0.

Section Methods.
Variable assertionsEnabled : bool.

Definition set_x (v : number) (this : t) : outcome t :=
  assert assertionsEnabled (Quantization.isQuantized v) ;; Return (mk v (_y this) (_z this)).

Definition set_y (v : number) (this : t) : outcome t :=
  assert assertionsEnabled (Quantization.isQuantized v) ;; Return (mk (_x this) v (_z this)).

Definition set_z (v : number) (this : t) : outcome t :=
  assert assertionsEnabled (Quantization.isQuantized v) ;; Return (mk (_x this) (_y this) v).

Definition init (pos : Point3d.t) (params : QParams3d.t) (this : t) : outcome t :=
  this ← set_x (Quantization.quantize (Point3d.x pos)
                  (Point3d.x (QParams3d.origin params)) (Point3d.x (QParams3d.scale params))) this;
  this ← set_y (Quantization.quantize (Point3d.y pos)
                  (Point3d.y (QParams3d.origin params)) (Point3d.y (QParams3d.scale params))) this;
  set_z (Quantization.quantize (Point3d.z pos)
           (Point3d.z (QParams3d.origin params)) (Point3d.z (QParams3d.scale params))) this.

Definition create (pos : Point3d.t) (params : QParams3d.t) : outcome t :=
  let qpt := new in
  init pos params qpt.

Definition copyFrom (src : t) (this : t) : outcome t :=
  this ← set_x (x src) this;
  this ← set_y (y src) this;
  set_z (z src) this.

Definition clone (this : t) (out : option t) : outcome t :=
  let result := default new out in
  copyFrom this result.

Definition setFromScalars (x y z : number) (this : t) : outcome t :=
  this ← set_x x this;
  this ← set_y y this;
  set_z z this.

Definition fromScalars (x y z : number) : outcome t :=
  let pt := new in
  setFromScalars x y z pt.

End Methods.

Definition unquantize (this : t) (params : QParams3d.t) (out : option Point3d.t) : Point3d.t :=
  let pt := default Point3d.new out in
  let pt := Point3d.set_x (Quantization.unquantize (x this)
              (Point3d.x (QParams3d.origin params)) (Point3d.x (QParams3d.scale params))) pt in
  let pt := Point3d.set_y (Quantization.unquantize (y this)
              (Point3d.y (QParams3d.origin params)) (Point3d.y (QParams3d.scale params))) pt in
  let pt := Point3d.set_z (Quantization.unquantize (z this)
              (Point3d.z (QParams3d.origin params)) (Point3d.z (QParams3d.scale params))) pt in
  pt.

End QPoint3d.

(** ** class QPoint3dList *)

Module QPoint3dList.

Record t : Type := mk { params : QParams3d.t; _list : list QPoint3d.t }.

Definition new (params : QParams3d.t) : t := mk (QParams3d.clone params None) [].

Definition clear (this : t) : t := mk (params this) [].

Definition reset (params' : QParams3d.t) (this : t) : t :=
  let this := clear this in
  mk (QParams3d.copyFrom params' (params this)) (_list this).

Definition length (this : t) : nat := List.length (_list this).

Section Methods.
Variable assertionsEnabled : bool.

Definition add (pt : Point3d.t) (this : t) : outcome t :=
  qpt ← QPoint3d.create assertionsEnabled pt (params this);
  Return (mk (params this) (_list this ++ [qpt])).

Definition push (qpt : QPoint3d.t) (this : t) : outcome t :=
  qpt ← QPoint3d.clone assertionsEnabled qpt None;
  Return (mk (params this) (_list this ++ [qpt])).

(** Returns the point together with the list, which it only reads. *)
Definition unquantize (index : number) (out : option Point3d.t) (this : t)
    : outcome (Point3d.t * t) :=
  assert assertionsEnabled (JS.lt index (inject_Z (Z.of_nat (length this)))) ;;
  if JS.lt index (inject_Z (Z.of_nat (length this))) then
    match array_get (_list this) index with
    | Some qpt => Return (QPoint3d.unquantize qpt (params this) out, this)
    | None => Throw TypeError
    end
  else
    Return (default Point3d.new out, this).

Definition requantize_body (params' : QParams3d.t) (i : nat) (this : t) : outcome t :=
  '(pt, this) ← unquantize (inject_Z (Z.of_nat i)) None this;
  match _list this !! i with
  | Some qpt =>
      qpt ← QPoint3d.init assertionsEnabled pt params' qpt;
      Return (mk (params this) (<[i := qpt]> (_list this)))
  | None => Throw TypeError
  end.

Definition requantize (params' : QParams3d.t) (this : t) : outcome t :=
  this ← for_loop (length this) (λ i this, Nat.ltb i (length this))
           (requantize_body params') 0 this;
  Return (mk (QParams3d.copyFrom params' (params this)) (_list this)).

End Methods.

Definition toTypedArray_body (pts : list QPoint3d.t) (i : nat) (array : Uint16Array.t)
    : outcome Uint16Array.t :=
  match pts !! i with
  | Some pt =>
      let array := Uint16Array.set (i * 3 + 0) (QPoint3d.x pt) array in
      let array := Uint16Array.set (i * 3 + 1) (QPoint3d.y pt) array in
      let array := Uint16Array.set (i * 3 + 2) (QPoint3d.z pt) array in
      Return array
  | None => Throw TypeError
  end.

Definition toTypedArray (this : t) : outcome Uint16Array.t :=
  let array := Uint16Array.new (length this * 3) in
  let pts := _list this in
  for_loop (length this) (λ i _, Nat.ltb i (length this)) (toTypedArray_body pts) 0 array.

End QPoint3dList.

(** * Vocabulary of the specification *)

(** The invariant of a quantized point: every component is an integer of
    the grid, that is, passes the check the setters assert. *)
Definition QPoint2d_valid (p : QPoint2d.t) : Prop :=
  Quantization.isQuantized (QPoint2d.x p) = true ∧
  Quantization.isQuantized (QPoint2d.y p) = true.

Definition QPoint3d_valid (p : QPoint3d.t) : Prop :=
  Quantization.isQuantized (QPoint3d.x p) = true ∧
  Quantization.isQuantized (QPoint3d.y p) = true ∧
  Quantization.isQuantized (QPoint3d.z p) = true.



(** Re-basing one component: dequantize under the scale and origin of the
    current record, quantize under those of the new one. *)
Definition rebase (q o s o' s' : number) : number :=
  Quantization.quantize (Quantization.unquantize q o s) o' s'.

Definition rebase2d (old new : QParams2d.t) (p : QPoint2d.t) : QPoint2d.t :=
  QPoint2d.mk
    (rebase (QPoint2d.x p)
       (Point2d.x (QParams2d.origin old)) (Point2d.x (QParams2d.scale old))
       (Point2d.x (QParams2d.origin new)) (Point2d.x (QParams2d.scale new)))
    (rebase (QPoint2d.y p)
       (Point2d.y (QParams2d.origin old)) (Point2d.y (QParams2d.scale old))
       (Point2d.y (QParams2d.origin new)) (Point2d.y (QParams2d.scale new))).

Definition rebase3d (old new : QParams3d.t) (p : QPoint3d.t) : QPoint3d.t :=
  QPoint3d.mk
    (rebase (QPoint3d.x p)
       (Point3d.x (QParams3d.origin old)) (Point3d.x (QParams3d.scale old))
       (Point3d.x (QParams3d.origin new)) (Point3d.x (QParams3d.scale new)))
    (rebase (QPoint3d.y p)
       (Point3d.y (QParams3d.origin old)) (Point3d.y (QParams3d.scale old))
       (Point3d.y (QParams3d.origin new)) (Point3d.y (QParams3d.scale new)))
    (rebase (QPoint3d.z p)
       (Point3d.z (QParams3d.origin old)) (Point3d.z (QParams3d.scale old))
       (Point3d.z (QParams3d.origin new)) (Point3d.z (QParams3d.scale new))).



(** A component that re-basing onto the same record can keep: on an axis
    of zero scale every component is re-based to 0, so only 0 and 1 stay
    within one cell.  [add] stores 0 on such an axis. *)
Definition keeps_axis (scale q : number) : Prop := scale == 0 → q <= 1.

Definition keeps2d (params : QParams2d.t) (p : QPoint2d.t) : Prop :=
  keeps_axis (Point2d.x (QParams2d.scale params)) (QPoint2d.x p) ∧
  keeps_axis (Point2d.y (QParams2d.scale params)) (QPoint2d.y p).

Definition keeps3d (params : QParams3d.t) (p : QPoint3d.t) : Prop :=
  keeps_axis (Point3d.x (QParams3d.scale params)) (QPoint3d.x p) ∧
  keeps_axis (Point3d.y (QParams3d.scale params)) (QPoint3d.y p) ∧
  keeps_axis (Point3d.z (QParams3d.scale params)) (QPoint3d.z p).

(** The laws of a single axis.  [low] and [high] are the corners of the
    source range on the axis, [origin] and [scale] what the record holds
    for it. *)



(** Degenerate axis: zero extent gives zero scale, and every stored
    integer is dequantized to the origin. *)
Definition axis_degenerate (low high origin scale : number) : Prop :=
  high - low == 0 →
  scale == 0 ∧ ∀ q : number, Quantization.unquantize q origin scale = origin.

(** An element of a [Uint16Array]. *)
Definition is_uint16 (e : Z) : Prop := (0 <= e < 65536)%Z.

(** ** Scenarios *)

(** The degenerate range of the specification: low (1,1,1), high (1,5,9). *)
Definition flat_range3d : Range3d.t :=
  Range3d.mk (Point3d.create 1 1 1) (Point3d.create 1 5 9) false.

(** The range from (0,0) to (10,10). *)
Definition ten_range2d : Range2d.t :=
  Range2d.mk (Point2d.create 0 0) (Point2d.create 10 10) false.

(** A range holding the single point (1,1): zero extent on both axes. *)
Definition single_range2d : Range2d.t :=
  Range2d.mk (Point2d.create 1 1) (Point2d.create 1 1) false.


(** Two points added to a list over the record of [ten_range2d]. *)
Definition added_list2d : outcome QPoint2dList.t :=
  l ← QPoint2dList.add true (Point2d.create 5 5)
         (QPoint2dList.new (QParams2d.fromRange ten_range2d None));
  QPoint2dList.add true (Point2d.create 10 0) l.

(** Three points added to a list over the record of [flat_range3d]. *)
Definition added_list3d : outcome QPoint3dList.t :=
  l ← QPoint3dList.add true (Point3d.create 1 1 1)
         (QPoint3dList.new (QParams3d.fromRange flat_range3d None));
  l ← QPoint3dList.add true (Point3d.create 1 3 5) l;
  QPoint3dList.add true (Point3d.create 1 5 9) l.

(** The lists the two [add] scenarios build. *)
Definition ten_list2d : QPoint2dList.t :=
  QPoint2dList.mk (QParams2d.fromRange ten_range2d None)
    [QPoint2d.mk 32768 32768; QPoint2d.mk 65535 0].

Definition flat_list3d : QPoint3dList.t :=
  QPoint3dList.mk (QParams3d.fromRange flat_range3d None)
    [QPoint3d.mk 0 0 0; QPoint3d.mk 0 32768 32768; QPoint3d.mk 0 65535 65535].

(** ** Vocabulary of the further properties *)





(** Quantized points with the same components. *)
Definition same2d (p q : QPoint2d.t) : Prop :=
  QPoint2d.x p == QPoint2d.x q ∧ QPoint2d.y p == QPoint2d.y q.

Definition same3d (p q : QPoint3d.t) : Prop :=
  QPoint3d.x p == QPoint3d.x q ∧ QPoint3d.y p == QPoint3d.y q ∧
  QPoint3d.z p == QPoint3d.z q.

(** The components of a point as they are stored in a [Uint16Array]. *)
Definition packed2d (p : QPoint2d.t) : list Z :=
  [ToUint16 (QPoint2d.x p); ToUint16 (QPoint2d.y p)].

Definition packed3d (p : QPoint3d.t) : list Z :=
  [ToUint16 (QPoint3d.x p); ToUint16 (QPoint3d.y p); ToUint16 (QPoint3d.z p)].

(** A call of one of the mutating methods of a list, and a sequence of
    such calls run one after the other on the same list; an exception ends
    the sequence. *)
Inductive call2d : Type :=
| Add2d (pt : Point2d.t)
| Push2d (qpt : QPoint2d.t)
| Clear2d
| Reset2d (params : QParams2d.t)
| Requantize2d (params : QParams2d.t).

Definition call2d_run (assertionsEnabled : bool) (c : call2d) (l : QPoint2dList.t)
    : outcome QPoint2dList.t :=
  match c with
  | Add2d pt => QPoint2dList.add assertionsEnabled pt l
  | Push2d qpt => QPoint2dList.push assertionsEnabled qpt l
  | Clear2d => Return (QPoint2dList.clear l)
  | Reset2d params => Return (QPoint2dList.reset params l)
  | Requantize2d params => QPoint2dList.requantize assertionsEnabled params l
  end.

Fixpoint calls2d_run (assertionsEnabled : bool) (cs : list call2d) (l : QPoint2dList.t)
    : outcome QPoint2dList.t :=
  match cs with
  | [] => Return l
  | c :: cs => l ← call2d_run assertionsEnabled c l; calls2d_run assertionsEnabled cs l
  end.

Inductive call3d : Type :=
| Add3d (pt : Point3d.t)
| Push3d (qpt : QPoint3d.t)
| Clear3d
| Reset3d (params : QParams3d.t)
| Requantize3d (params : QParams3d.t).

Definition call3d_run (assertionsEnabled : bool) (c : call3d) (l : QPoint3dList.t)
    : outcome QPoint3dList.t :=
  match c with
  | Add3d pt => QPoint3dList.add assertionsEnabled pt l
  | Push3d qpt => QPoint3dList.push assertionsEnabled qpt l
  | Clear3d => Return (QPoint3dList.clear l)
  | Reset3d params => Return (QPoint3dList.reset params l)
  | Requantize3d params => QPoint3dList.requantize assertionsEnabled params l
  end.

Fixpoint calls3d_run (assertionsEnabled : bool) (cs : list call3d) (l : QPoint3dList.t)
    : outcome QPoint3dList.t :=
  match cs with
  | [] => Return l
  | c :: cs => l ← call3d_run assertionsEnabled c l; calls3d_run assertionsEnabled cs l
  end.

(** ** The title of a cluster of section locations *)

(** The title that the constructor of [SectionLocationClusterMarker]
    builds from the titles of the markers of its cluster (the titles are
    strings, set by the constructor of [SectionLocation]).  Strings are
    sequences of characters; the code only appends them and compares with
    the empty string. *)

Module SectionLocationClusterMarker.

Definition maxLen : nat := 10.

(** The callback given to [forEach]: [title] is the variable it updates. *)
Definition callback (title : string) (marker_title : string) (index : nat) : string :=
  if Nat.ltb index maxLen then
    let title := if negb (String.eqb title "") then title +:+ "<br>" else title in
    title +:+ marker_title
  else title.

(** [markers.forEach((marker, index) => ...)], from [index] on. *)
Fixpoint forEach (markers : list string) (index : nat) (title : string) : string :=
  match markers with
  | [] => title
  | marker :: markers => forEach markers (Datatypes.S index) (callback title marker index)
  end.

Definition title (markers : list string) : string :=
  let title := forEach markers 0 "" in
  if Nat.ltb maxLen (length markers) then title +:+ "<br>..." else title.

End SectionLocationClusterMarker.

(** Each title preceded by the separator. *)
Fixpoint separated (markers : list string) : string :=
  match markers with
  | [] => ""
  | m :: ms => "<br>" +:+ m +:+ separated ms
  end.

(** What follows the listed titles when markers are left out. *)
Definition more_markers (markers : list string) : string :=
  if Nat.ltb 10 (length markers) then "<br>..." else "".

(** * The module on doubles *)

(** The same module with numbers as IEEE 754 binary64 values, the doubles
    of JavaScript: [float] with its primitive operations, which round to
    nearest, ties to even, overflow to an infinity and have a NaN.  This
    layer carries the properties that depend on what the arithmetic of
    the module returns.  An index of an array is only compared and
    looked up, never computed with, and stays the rational it denotes. *)

Module Double.

Local Open Scope float_scope.

(** [index < this.length] for an index and the length of an array. *)
Definition index_lt (index : Q) (length : nat) : bool :=
  JS.lt index (inject_Z (Z.of_nat length)).

(** The double of an integer; exact below [2^53]. *)
Definition of_integer (z : Z) : float :=
  if (z <? 0)%Z then - PrimFloat.of_uint63 (Uint63.of_Z (- z))
  else PrimFloat.of_uint63 (Uint63.of_Z z).

Module JS.

(** [a === b] on numbers: NaN differs from itself, the two zeros are equal. *)
Definition strict_eq (a b : float) : bool := PrimFloat.eqb a b.

(** [a >= b] and [a < b] on numbers; false when either is NaN. *)
Definition ge (a b : float) : bool := PrimFloat.leb b a.
Definition lt (a b : float) : bool := PrimFloat.ltb a b.

End JS.

Module Math.

(** [Math.floor]: NaN, the infinities and the zeros are returned as they
    are, and so is a number with no fractional bits; otherwise the
    mantissa is divided, rounding down, by the power of two of its
    exponent. *)
Definition floor (x : float) : float :=
  match Prim2SF x with
  | S754_finite s m e =>
      if (0 <=? e)%Z then x
      else of_integer (Z.div (cond_Zopp s (Zpos m)) (Z.pow 2 (- e)))
  | _ => x
  end.

Definition is_neg_zero (x : float) : bool := PrimFloat.is_zero x && PrimFloat.get_sign x.

(** [Math.max] and [Math.min] of two numbers: NaN when either is NaN, and
    [-0] counts as smaller than [+0]. *)
Definition max (a b : float) : float :=
  if PrimFloat.is_nan a || PrimFloat.is_nan b then PrimFloat.nan
  else if PrimFloat.ltb a b then b
  else if PrimFloat.ltb b a then a
  else if is_neg_zero a then b else a.

Definition min (a b : float) : float :=
  if PrimFloat.is_nan a || PrimFloat.is_nan b then PrimFloat.nan
  else if PrimFloat.ltb a b then a
  else if PrimFloat.ltb b a then b
  else if is_neg_zero a then a else b.

End Math.

Module Quantization.

Definition rangeScale : float := 65535.  (* 0xffff *)

Definition computeScale (extent : float) : float :=
  if JS.strict_eq 0 extent then extent else rangeScale / extent.

Definition isInRange (qpos : float) : bool :=
  JS.ge qpos 0 && JS.lt qpos (rangeScale + 1).

Definition quantize (pos origin scale : float) : float :=
  Math.floor (Math.max 0 (Math.min rangeScale (0.5 + (pos - origin) * scale))).

Definition isQuantizable (pos origin scale : float) : bool :=
  isInRange (quantize pos origin scale).

Definition unquantize (qpos origin scale : float) : float :=
  if JS.strict_eq 0 scale then origin else origin + qpos / scale.

Definition isQuantized (qpos : float) : bool :=
  isInRange qpos && JS.strict_eq qpos (Math.floor qpos).

End Quantization.

(** The formula of the specification for [quantize] on doubles:
    [floor(clamp(0, 65535, 0.5 + (pos - origin) * scale))], where
    [clamp lo hi v] is [lo] at or below [lo], [hi] at or above [hi] and
    [v] otherwise. *)
Definition clamp (lo hi v : float) : float :=
  if PrimFloat.leb v lo then lo else if PrimFloat.leb hi v then hi else v.

Definition spec_quantize (pos origin scale : float) : float :=
  Math.floor (clamp 0 65535 (0.5 + (pos - origin) * scale)).

Module Point2d.
Record t : Type := create { x : float; y : float }.
Definition new : t := create 0 0.
Definition set_x (v : float) (this : t) : t := create v (y this).
Definition set_y (v : float) (this : t) : t := create (x this) v.
End Point2d.

Module Point3d.
Record t : Type := create { x : float; y : float; z : float }.
Definition new : t := create 0 0 0.
Definition set_x (v : float) (this : t) : t := create v (y this) (z this).
Definition set_y (v : float) (this : t) : t := create (x this) v (z this).
Definition set_z (v : float) (this : t) : t := create (x this) (y this) v.
End Point3d.

Module Range2d.
Record t : Type := mk { low : Point2d.t; high : Point2d.t; isNull : bool }.
End Range2d.

Module Range3d.
Record t : Type := mk { low : Point3d.t; high : Point3d.t; isNull : bool }.
End Range3d.

(** ** class QParams2d *)

Module QParams2d.

Record t : Type := mk { origin : Point2d.t; scale : Point2d.t }.

Definition setFrom (ox oy sx sy : float) (this : t) : t :=
  let o := Point2d.set_y oy (Point2d.set_x ox (origin this)) in
  let s := Point2d.set_y sy (Point2d.set_x sx (scale this)) in
  mk o s.

(** The private constructor with its default arguments. *)
Definition new : t := setFrom 0 0 0 0 (mk Point2d.new Point2d.new).

Definition copyFrom (src : t) (this : t) : t :=
  setFrom (Point2d.x (origin src)) (Point2d.y (origin src))
          (Point2d.x (scale src)) (Point2d.y (scale src)) this.

Definition clone (this : t) (out : option t) : t :=
  let result := default new out in
  copyFrom this result.

Definition setFromRange (range : Range2d.t) (this : t) : t :=
  if negb (Range2d.isNull range) then
    setFrom (Point2d.x (Range2d.low range)) (Point2d.y (Range2d.low range))
      (Quantization.computeScale (Point2d.x (Range2d.high range) - Point2d.x (Range2d.low range)))
      (Quantization.computeScale (Point2d.y (Range2d.high range) - Point2d.y (Range2d.low range)))
      this
  else
    mk (Point2d.set_y 0 (Point2d.set_x 0 (origin this)))
       (Point2d.set_y 0 (Point2d.set_x 0 (scale this))).

Definition fromRange (range : Range2d.t) (out : option t) : t :=
  let params := default new out in
  setFromRange range params.

(** [Range2d.createArray] of the two corner points is the range they span. *)
Definition fromNormalizedRange : t :=
  fromRange (Range2d.mk (Point2d.create (-1) (-1)) (Point2d.create 1 1) false) None.

Definition fromZeroToOne : t :=
  fromRange (Range2d.mk (Point2d.create 0 0) (Point2d.create 1 1) false) None.

End QParams2d.

(** ** class QPoint2d *)

Module QPoint2d.

Record t : Type := mk { _x : float; _y : float }.

Definition x (this : t) : float := _x this.
Definition y (this : t) : float := _y this.

(** The private constructor: both fields start at 0. *)
Definition new : t := mk 0 0.

Section Methods.
Variable assertionsEnabled : bool.

Definition set_x (v : float) (this : t) : outcome t :=
  assert assertionsEnabled (Quantization.isQuantized v) ;; Return (mk v (_y this)).

Definition set_y (v : float) (this : t) : outcome t :=
  assert assertionsEnabled (Quantization.isQuantized v) ;; Return (mk (_x this) v).

Definition init (pos : Point2d.t) (params : QParams2d.t) (this : t) : outcome t :=
  this ← set_x (Quantization.quantize (Point2d.x pos)
                  (Point2d.x (QParams2d.origin params)) (Point2d.x (QParams2d.scale params))) this;
  set_y (Quantization.quantize (Point2d.y pos)
           (Point2d.y (QParams2d.origin params)) (Point2d.y (QParams2d.scale params))) this.

Definition create (pos : Point2d.t) (params : QParams2d.t) : outcome t :=
  let qpt := new in
  init pos params qpt.

Definition copyFrom (src : t) (this : t) : outcome t :=
  this ← set_x (x src) this;
  set_y (y src) this.

Definition clone (this : t) (out : option t) : outcome t :=
  let result := default new out in
  copyFrom this result.

Definition setFromScalars (x y : float) (this : t) : outcome t :=
  this ← set_x x this;
  set_y y this.

Definition fromScalars (x y : float) : outcome t :=
  let pt := new in
  setFromScalars x y pt.

End Methods.

Definition unquantize (this : t) (params : QParams2d.t) (out : option Point2d.t) : Point2d.t :=
  let pt := default Point2d.new out in
  let pt := Point2d.set_x (Quantization.unquantize (x this)
              (Point2d.x (QParams2d.origin params)) (Point2d.x (QParams2d.scale params))) pt in
  let pt := Point2d.set_y (Quantization.unquantize (y this)
              (Point2d.y (QParams2d.origin params)) (Point2d.y (QParams2d.scale params))) pt in
  pt.

End QPoint2d.

(** ** class QPoint2dList *)

Module QPoint2dList.

Record t : Type := mk { params : QParams2d.t; _list : list QPoint2d.t }.

Definition new (params : QParams2d.t) : t := mk (QParams2d.clone params None) [].

Definition clear (this : t) : t := mk (params this) [].

Definition reset (params' : QParams2d.t) (this : t) : t :=
  let this := clear this in
  mk (QParams2d.copyFrom params' (params this)) (_list this).

Definition length (this : t) : nat := List.length (_list this).

Section Methods.
Variable assertionsEnabled : bool.

Definition add (pt : Point2d.t) (this : t) : outcome t :=
  qpt ← QPoint2d.create assertionsEnabled pt (params this);
  Return (mk (params this) (_list this ++ [qpt])).

Definition push (qpt : QPoint2d.t) (this : t) : outcome t :=
  qpt ← QPoint2d.clone assertionsEnabled qpt None;
  Return (mk (params this) (_list this ++ [qpt])).

(** Returns the point together with the list, which it only reads. *)
Definition unquantize (index : Q) (out : option Point2d.t) (this : t)
    : outcome (Point2d.t * t) :=
  assert assertionsEnabled (index_lt index (length this)) ;;
  if index_lt index (length this) then
    match array_get (_list this) index with
    | Some qpt => Return (QPoint2d.unquantize qpt (params this) out, this)
    | None => Throw TypeError
    end
  else
    Return (default Point2d.new out, this).

Definition requantize_body (params' : QParams2d.t) (i : nat) (this : t) : outcome t :=
  '(pt, this) ← unquantize (inject_Z (Z.of_nat i)) None this;
  match _list this !! i with
  | Some qpt =>
      qpt ← QPoint2d.init assertionsEnabled pt params' qpt;
      Return (mk (params this) (<[i := qpt]> (_list this)))
  | None => Throw TypeError
  end.

Definition requantize (params' : QParams2d.t) (this : t) : outcome t :=
  this ← for_loop (length this) (λ i this, Nat.ltb i (length this))
           (requantize_body params') 0%nat this;
  Return (mk (QParams2d.copyFrom params' (params this)) (_list this)).

End Methods.

End QPoint2dList.

(** ** class QParams3d *)

Module QParams3d.

Record t : Type := mk { origin : Point3d.t; scale : Point3d.t }.

Definition setFrom (ox oy oz sx sy sz : float) (this : t) : t :=
  let o := Point3d.set_z oz (Point3d.set_y oy (Point3d.set_x ox (origin this))) in
  let s := Point3d.set_z sz (Point3d.set_y sy (Point3d.set_x sx (scale this))) in
  mk o s.

Definition new : t := setFrom 0 0 0 0 0 0 (mk Point3d.new Point3d.new).

Definition copyFrom (src : t) (this : t) : t :=
  setFrom (Point3d.x (origin src)) (Point3d.y (origin src)) (Point3d.z (origin src))
          (Point3d.x (scale src)) (Point3d.y (scale src)) (Point3d.z (scale src)) this.

Definition clone (this : t) (out : option t) : t :=
  let result := default new out in
  copyFrom this result.

Definition setFromRange (range : Range3d.t) (this : t) : t :=
  if negb (Range3d.isNull range) then
    setFrom (Point3d.x (Range3d.low range)) (Point3d.y (Range3d.low range))
      (Point3d.z (Range3d.low range))
      (Quantization.computeScale (Point3d.x (Range3d.high range) - Point3d.x (Range3d.low range)))
      (Quantization.computeScale (Point3d.y (Range3d.high range) - Point3d.y (Range3d.low range)))
      (Quantization.computeScale (Point3d.z (Range3d.high range) - Point3d.z (Range3d.low range)))
      this
  else
    mk (Point3d.set_z 0 (Point3d.set_y 0 (Point3d.set_x 0 (origin this))))
       (Point3d.set_z 0 (Point3d.set_y 0 (Point3d.set_x 0 (scale this)))).

Definition fromRange (range : Range3d.t) (out : option t) : t :=
  let params := default new out in
  setFromRange range params.

Definition fromNormalizedRange : t :=
  fromRange (Range3d.mk (Point3d.create (-1) (-1) (-1)) (Point3d.create 1 1 1) false) None.

Definition fromZeroToOne : t :=
  fromRange (Range3d.mk (Point3d.create 0 0 0) (Point3d.create 1 1 1) false) None.

End QParams3d.

(** ** class QPoint3d *)

Module QPoint3d.

Record t : Type := mk { _x : float; _y : float; _z : float }.

Definition x (this : t) : float := _x this.
Definition y (this : t) : float := _y this.
Definition z (this : t) : float := _z this.

Definition new : t := mk 0 0 0.

Section Methods.
Variable assertionsEnabled : bool.

Definition set_x (v : float) (this : t) : outcome t :=
  assert assertionsEnabled (Quantization.isQuantized v) ;; Return (mk v (_y this) (_z this)).

Definition set_y (v : float) (this : t) : outcome t :=
  assert assertionsEnabled (Quantization.isQuantized v) ;; Return (mk (_x this) v (_z this)).

Definition set_z (v : float) (this : t) : outcome t :=
  assert assertionsEnabled (Quantization.isQuantized v) ;; Return (mk (_x this) (_y this) v).

Definition init (pos : Point3d.t) (params : QParams3d.t) (this : t) : outcome t :=
  this ← set_x (Quantization.quantize (Point3d.x pos)
                  (Point3d.x (QParams3d.origin params)) (Point3d.x (QParams3d.scale params))) this;
  this ← set_y (Quantization.quantize (Point3d.y pos)
                  (Point3d.y (QParams3d.origin params)) (Point3d.y (QParams3d.scale params))) this;
  set_z (Quantization.quantize (Point3d.z pos)
           (Point3d.z (QParams3d.origin params)) (Point3d.z (QParams3d.scale params))) this.

Definition create (pos : Point3d.t) (params : QParams3d.t) : outcome t :=
  let qpt := new in
  init pos params qpt.

Definition copyFrom (src : t) (this : t) : outcome t :=
  this ← set_x (x src) this;
  this ← set_y (y src) this;
  set_z (z src) this.

Definition clone (this : t) (out : option t) : outcome t :=
  let result := default new out in
  copyFrom this result.

Definition setFromScalars (x y z : float) (this : t) : outcome t :=
  this ← set_x x this;
  this ← set_y y this;
  set_z z this.

Definition fromScalars (x y z : float) : outcome t :=
  let pt := new in
  setFromScalars x y z pt.

End Methods.

Definition unquantize (this : t) (params : QParams3d.t) (out : option Point3d.t) : Point3d.t :=
  let pt := default Point3d.new out in
  let pt := Point3d.set_x (Quantization.unquantize (x this)
              (Point3d.x (QParams3d.origin params)) (Point3d.x (QParams3d.scale params))) pt in
  let pt := Point3d.set_y (Quantization.unquantize (y this)
              (Point3d.y (QParams3d.origin params)) (Point3d.y (QParams3d.scale params))) pt in
  let pt := Point3d.set_z (Quantization.unquantize (z this)
              (Point3d.z (QParams3d.origin params)) (Point3d.z (QParams3d.scale params))) pt in
  pt.

End QPoint3d.

(** ** class QPoint3dList *)

Module QPoint3dList.

Record t : Type := mk { params : QParams3d.t; _list : list QPoint3d.t }.

Definition new (params : QParams3d.t) : t := mk (QParams3d.clone params None) [].

Definition clear (this : t) : t := mk (params this) [].

Definition reset (params' : QParams3d.t) (this : t) : t :=
  let this := clear this in
  mk (QParams3d.copyFrom params' (params this)) (_list this).

Definition length (this : t) : nat := List.length (_list this).

Section Methods.
Variable assertionsEnabled : bool.

Definition add (pt : Point3d.t) (this : t) : outcome t :=
  qpt ← QPoint3d.create assertionsEnabled pt (params this);
  Return (mk (params this) (_list this ++ [qpt])).

Definition push (qpt : QPoint3d.t) (this : t) : outcome t :=
  qpt ← QPoint3d.clone assertionsEnabled qpt None;
  Return (mk (params this) (_list this ++ [qpt])).

(** Returns the point together with the list, which it only reads. *)
Definition unquantize (index : Q) (out : option Point3d.t) (this : t)
    : outcome (Point3d.t * t) :=
  assert assertionsEnabled (index_lt index (length this)) ;;
  if index_lt index (length this) then
    match array_get (_list this) index with
    | Some qpt => Return (QPoint3d.unquantize qpt (params this) out, this)
    | None => Throw TypeError
    end
  else
    Return (default Point3d.new out, this).

Definition requantize_body (params' : QParams3d.t) (i : nat) (this : t) : outcome t :=
  '(pt, this) ← unquantize (inject_Z (Z.of_nat i)) None this;
  match _list this !! i with
  | Some qpt =>
      qpt ← QPoint3d.init assertionsEnabled pt params' qpt;
      Return (mk (params this) (<[i := qpt]> (_list this)))
  | None => Throw TypeError
  end.

Definition requantize (params' : QParams3d.t) (this : t) : outcome t :=
  this ← for_loop (length this) (λ i this, Nat.ltb i (length this))
           (requantize_body params') 0%nat this;
  Return (mk (QParams3d.copyFrom params' (params this)) (_list this)).

End Methods.

End QPoint3dList.

End Double.

(** * Properties *)

(** ** Scalar facts about numbers, [floor] and the clamp *)

Section ScalarFacts.

Lemma strict_eq_true (a b : number) : JS.strict_eq a b = true ↔ a == b.
Proof. apply Qeq_bool_iff. Qed.

Lemma ge_true (a b : number) : JS.ge a b = true ↔ b <= a.
Proof. apply Qle_bool_iff. Qed.

Lemma lt_true (a b : number) : JS.lt a b = true ↔ a < b.
Proof.
  unfold JS.lt. rewrite negb_true_iff. split.
  - intros H. apply Qnot_le_lt. intros Hle. apply Qle_bool_iff in Hle. congruence.
  - intros H. destruct (Qle_bool b a) eqn:E; [|reflexivity].
    apply Qle_bool_iff in E. lra.
Qed.

Lemma lt_false (a b : number) : JS.lt a b = false ↔ b <= a.
Proof.
  unfold JS.lt. rewrite negb_false_iff. apply Qle_bool_iff.
Qed.

Lemma max_spec (a b : number) :
  (a <= b ∧ Math.max a b = b) ∨ (b < a ∧ Math.max a b = a).
Proof.
  unfold Math.max. destruct (Qle_bool a b) eqn:E.
  - left. apply Qle_bool_iff in E. auto.
  - right. split; [|reflexivity]. apply Qnot_le_lt. intros H.
    apply Qle_bool_iff in H. congruence.
Qed.

Lemma min_spec (a b : number) :
  (a <= b ∧ Math.min a b = a) ∨ (b < a ∧ Math.min a b = b).
Proof.
  unfold Math.min. destruct (Qle_bool a b) eqn:E.
  - left. apply Qle_bool_iff in E. auto.
  - right. split; [|reflexivity]. apply Qnot_le_lt. intros H.
    apply Qle_bool_iff in H. congruence.
Qed.

(** The source's clamp [max 0 (min 65535 v)] is the saturating clamp. *)
Lemma max_min_clamp (v : number) :
  Math.max 0 (Math.min Quantization.rangeScale v) == clamp 0 65535 v.
Proof.
  unfold clamp, Quantization.rangeScale.
  destruct (min_spec 65535 v) as [[H1 ->]|[H1 ->]];
    [destruct (max_spec 0 65535) as [[H2 ->]|[H2 ->]]
    |destruct (max_spec 0 v) as [[H2 ->]|[H2 ->]]];
    destruct (Qlt_le_dec v 0); destruct (Qlt_le_dec 65535 v); lra.
Qed.

Lemma max_min_bounds (v : number) :
  0 <= Math.max 0 (Math.min Quantization.rangeScale v) <= 65535.
Proof.
  rewrite max_min_clamp. unfold clamp.
  destruct (Qlt_le_dec v 0); destruct (Qlt_le_dec 65535 v); lra.
Qed.

Lemma floor_inject_Z (z : Z) : Math.floor (inject_Z z) = inject_Z z.
Proof. unfold Math.floor. now rewrite Qfloor_Z. Qed.

(** [quantize] is the floor of a value between 0 and 65535. *)
Lemma quantize_grid (pos origin scale : number) :
  ∃ z : Z, Quantization.quantize pos origin scale = inject_Z z ∧ (0 <= z <= 65535)%Z.
Proof.
  unfold Quantization.quantize, Math.floor.
  set (c := Math.max 0 (Math.min _ _)).
  exists (Qfloor c). split; [reflexivity|].
  destruct (max_min_bounds ((1 # 2) + (pos - origin) * scale)) as [Hlo Hhi].
  fold c in Hlo, Hhi.
  split.
  - change 0%Z with (Qfloor 0). now apply Qfloor_resp_le.
  - change 65535%Z with (Qfloor 65535). now apply Qfloor_resp_le.
Qed.

Lemma isInRange_true (q : number) :
  Quantization.isInRange q = true ↔ 0 <= q ∧ q < 65536.
Proof.
  unfold Quantization.isInRange, Quantization.rangeScale.
  rewrite andb_true_iff, ge_true, lt_true.
  assert (E : 65535 + 1 == 65536) by reflexivity.
  rewrite E. reflexivity.
Qed.

Lemma isQuantized_inject_Z (z : Z) :
  (0 <= z <= 65535)%Z → Quantization.isQuantized (inject_Z z) = true.
Proof.
  intros [Hlo Hhi]. unfold Quantization.isQuantized.
  rewrite floor_inject_Z. apply andb_true_iff. split.
  - apply isInRange_true. split.
    + change 0 with (inject_Z 0). now rewrite <- Zle_Qle.
    + change 65536 with (inject_Z 65536). rewrite <- Zlt_Qlt. lia.
  - apply strict_eq_true. reflexivity.
Qed.

(** A number passes [isQuantized] exactly when it is an integer of the
    16-bit grid. *)
Lemma isQuantized_true (q : number) :
  Quantization.isQuantized q = true ↔ ∃ z : Z, q == inject_Z z ∧ (0 <= z <= 65535)%Z.
Proof.
  split.
  - unfold Quantization.isQuantized. rewrite andb_true_iff, isInRange_true, strict_eq_true.
    intros [[Hlo Hhi] Hint]. exists (Qfloor q). split; [exact Hint|].
    unfold Math.floor in Hint. rewrite Hint in Hlo, Hhi.
    change 0 with (inject_Z 0) in Hlo. rewrite <- Zle_Qle in Hlo.
    change 65536 with (inject_Z 65536) in Hhi. rewrite <- Zlt_Qlt in Hhi. lia.
  - intros (z & Hq & [Hlo Hhi]). unfold Quantization.isQuantized.
    rewrite andb_true_iff, isInRange_true, strict_eq_true.
    unfold Math.floor. rewrite (Qfloor_comp _ _ Hq), Qfloor_Z.
    rewrite Zle_Qle in Hlo. rewrite Zle_Qle in Hhi.
    change (inject_Z 0) with 0 in Hlo. change (inject_Z 65535) with 65535 in Hhi.
    repeat split; lra.
Qed.

Lemma isQuantized_quantize (pos origin scale : number) :
  Quantization.isQuantized (Quantization.quantize pos origin scale) = true.
Proof.
  destruct (quantize_grid pos origin scale) as (z & -> & Hz).
  now apply isQuantized_inject_Z.
Qed.

End ScalarFacts.

Section RoundTrip.

Lemma computeScale_zero (extent : number) :
  extent == 0 → Quantization.computeScale extent == 0.
Proof.
  intros H. unfold Quantization.computeScale.
  destruct (JS.strict_eq 0 extent) eqn:E; [exact H|].
  assert (JS.strict_eq 0 extent = true) by (apply strict_eq_true; lra).
  congruence.
Qed.



Lemma unquantize_zero (q origin scale : number) :
  scale == 0 → Quantization.unquantize q origin scale = origin.
Proof.
  intros H. unfold Quantization.unquantize.
  destruct (JS.strict_eq 0 scale) eqn:E; [reflexivity|].
  assert (JS.strict_eq 0 scale = true) by (apply strict_eq_true; lra).
  congruence.
Qed.


(** [quantize] in terms of the clamp of the specification. *)
Lemma quantize_clamp (pos origin scale : number) :
  Quantization.quantize pos origin scale
  = inject_Z (Qfloor (clamp 0 65535 ((1 # 2) + (pos - origin) * scale))).
Proof.
  unfold Quantization.quantize, Math.floor. f_equal.
  apply Qfloor_comp, max_min_clamp.
Qed.

(** The value a scaled offset [v] is quantized to, for the three ways the
    clamp can go. *)
Lemma quantize_low (pos origin scale : number) :
  (pos - origin) * scale < 1 # 2 → Quantization.quantize pos origin scale = 0.
Proof.
  intros H. rewrite quantize_clamp.
  set (v := (1 # 2) + (pos - origin) * scale) in *.
  assert (Hv : v < 1) by (unfold v; lra).
  enough (E : Qfloor (clamp 0 65535 v) = 0%Z) by now rewrite E.
  unfold clamp.
  destruct (Qlt_le_dec v 0); [reflexivity|].
  destruct (Qlt_le_dec 65535 v); [lra|].
  pose proof (Qfloor_le v) as Hf. pose proof (Qlt_floor v) as Hc.
  assert (H0 : (0 <= Qfloor v)%Z).
  { change 0%Z with (Qfloor 0). now apply Qfloor_resp_le. }
  assert (H1 : inject_Z (Qfloor v) < inject_Z 1) by (change (inject_Z 1) with 1; lra).
  rewrite <- Zlt_Qlt in H1. lia.
Qed.







End RoundTrip.

(** ** Assertions, setters and the methods of a quantized point *)

Section PointFacts.
Variable assertionsEnabled : bool.

Lemma assert_holds : assert assertionsEnabled true = Return tt.
Proof. unfold assert. now rewrite andb_false_r. Qed.

Lemma QPoint2d_init_eq (pos : Point2d.t) (params : QParams2d.t) (this : QPoint2d.t) :
  QPoint2d.init assertionsEnabled pos params this
  = Return (QPoint2d.mk
      (Quantization.quantize (Point2d.x pos)
         (Point2d.x (QParams2d.origin params)) (Point2d.x (QParams2d.scale params)))
      (Quantization.quantize (Point2d.y pos)
         (Point2d.y (QParams2d.origin params)) (Point2d.y (QParams2d.scale params)))).
Proof.
  unfold QPoint2d.init, QPoint2d.set_x, QPoint2d.set_y.
  rewrite !isQuantized_quantize, assert_holds. reflexivity.
Qed.

Lemma QPoint2d_setFromScalars_eq (x y : number) (this : QPoint2d.t) :
  Quantization.isQuantized x = true → Quantization.isQuantized y = true →
  QPoint2d.setFromScalars assertionsEnabled x y this = Return (QPoint2d.mk x y).
Proof.
  intros Hx Hy. unfold QPoint2d.setFromScalars, QPoint2d.set_x, QPoint2d.set_y.
  rewrite Hx, Hy, assert_holds. reflexivity.
Qed.

Lemma QPoint2d_copyFrom_eq (src this : QPoint2d.t) :
  QPoint2d_valid src → QPoint2d.copyFrom assertionsEnabled src this = Return src.
Proof.
  intros [Hx Hy]. destruct src as [sx sy].
  apply (QPoint2d_setFromScalars_eq sx sy this Hx Hy).
Qed.

Lemma QPoint3d_init_eq (pos : Point3d.t) (params : QParams3d.t) (this : QPoint3d.t) :
  QPoint3d.init assertionsEnabled pos params this
  = Return (QPoint3d.mk
      (Quantization.quantize (Point3d.x pos)
         (Point3d.x (QParams3d.origin params)) (Point3d.x (QParams3d.scale params)))
      (Quantization.quantize (Point3d.y pos)
         (Point3d.y (QParams3d.origin params)) (Point3d.y (QParams3d.scale params)))
      (Quantization.quantize (Point3d.z pos)
         (Point3d.z (QParams3d.origin params)) (Point3d.z (QParams3d.scale params)))).
Proof.
  unfold QPoint3d.init, QPoint3d.set_x, QPoint3d.set_y, QPoint3d.set_z.
  rewrite !isQuantized_quantize, assert_holds. reflexivity.
Qed.

Lemma QPoint3d_setFromScalars_eq (x y z : number) (this : QPoint3d.t) :
  Quantization.isQuantized x = true → Quantization.isQuantized y = true →
  Quantization.isQuantized z = true →
  QPoint3d.setFromScalars assertionsEnabled x y z this = Return (QPoint3d.mk x y z).
Proof.
  intros Hx Hy Hz.
  unfold QPoint3d.setFromScalars, QPoint3d.set_x, QPoint3d.set_y, QPoint3d.set_z.
  rewrite Hx, Hy, Hz, assert_holds. reflexivity.
Qed.

Lemma QPoint3d_copyFrom_eq (src this : QPoint3d.t) :
  QPoint3d_valid src → QPoint3d.copyFrom assertionsEnabled src this = Return src.
Proof.
  intros (Hx & Hy & Hz). destruct src as [sx sy sz].
  apply (QPoint3d_setFromScalars_eq sx sy sz this Hx Hy Hz).
Qed.

(** With assertions enabled a setter refuses a value off the grid. *)
Lemma QPoint2d_set_rejects (v : number) (this : QPoint2d.t) :
  Quantization.isQuantized v = false →
  QPoint2d.set_x true v this = Throw AssertionError ∧
  QPoint2d.set_y true v this = Throw AssertionError.
Proof. intros H. unfold QPoint2d.set_x, QPoint2d.set_y. now rewrite H. Qed.

Lemma QPoint3d_set_rejects (v : number) (this : QPoint3d.t) :
  Quantization.isQuantized v = false →
  QPoint3d.set_x true v this = Throw AssertionError ∧
  QPoint3d.set_y true v this = Throw AssertionError ∧
  QPoint3d.set_z true v this = Throw AssertionError.
Proof.
  intros H. unfold QPoint3d.set_x, QPoint3d.set_y, QPoint3d.set_z. now rewrite H.
Qed.



End PointFacts.

(** ** The counting loop *)

Section Loop.
Context {S : Type}.
Variable Inv : nat → S → Prop.
Variable cond : nat → S → bool.
Variable body : nat → S → outcome S.
Variable n : nat.

Hypothesis cond_bound : ∀ i s, Inv i s → cond i s = Nat.ltb i n.
Hypothesis body_step : ∀ i s, (i < n)%nat → Inv i s →
  ∃ s', body i s = Return s' ∧ Inv (i + 1)%nat s'.

(** A loop whose condition is [i < n] and whose body keeps the invariant
    ends, within [n - i] iterations, in a state where the invariant holds
    at [n]. *)
Lemma for_loop_invariant (fuel i : nat) (s : S) :
  (i <= n)%nat → (n - i <= fuel)%nat → Inv i s →
  ∃ s', for_loop fuel cond body i s = Return s' ∧ Inv n s'.
Proof.
  revert i s. induction fuel as [|fuel IH]; intros i s Hin Hfuel Hinv.
  - assert (i = n) as -> by lia. exists s. split; [|assumption].
    simpl. rewrite (cond_bound _ _ Hinv), Nat.ltb_irrefl. reflexivity.
  - destruct (Nat.eq_dec i n) as [->|Hne].
    + exists s. split; [|assumption].
      simpl. rewrite (cond_bound _ _ Hinv), Nat.ltb_irrefl. reflexivity.
    + assert (Hlt : (i < n)%nat) by lia.
      destruct (body_step i s Hlt Hinv) as (s1 & Hb & Hinv1).
      destruct (IH (i + 1)%nat s1) as (s' & Hl & Hinv'); [lia|lia|assumption|].
      exists s'. split; [|assumption].
      simpl. rewrite (cond_bound _ _ Hinv).
      apply Nat.ltb_lt in Hlt. rewrite Hlt, Hb. exact Hl.
Qed.

End Loop.

(** ** Indexing with a loop counter *)

Section Indexing.

Lemma array_get_nat {A : Type} (a : list A) (i : nat) :
  array_get a (inject_Z (Z.of_nat i)) = a !! i.
Proof.
  unfold array_get. rewrite floor_inject_Z, Qfloor_Z, Nat2Z.id.
  assert (H0 : Qle_bool 0 (inject_Z (Z.of_nat i)) = true).
  { apply Qle_bool_iff. change 0 with (inject_Z 0). rewrite <- Zle_Qle. lia. }
  assert (H1 : JS.strict_eq (inject_Z (Z.of_nat i)) (inject_Z (Z.of_nat i)) = true).
  { apply strict_eq_true. reflexivity. }
  now rewrite H0, H1.
Qed.

Lemma lt_nat (i n : nat) :
  JS.lt (inject_Z (Z.of_nat i)) (inject_Z (Z.of_nat n)) = Nat.ltb i n.
Proof.
  destruct (Nat.ltb i n) eqn:E.
  - apply lt_true. rewrite <- Zlt_Qlt. apply Nat.ltb_lt in E. lia.
  - apply lt_false. rewrite <- Zle_Qle. apply Nat.ltb_ge in E. lia.
Qed.

End Indexing.

(** ** requantize is a map over the list *)

Section Requantize.
Variable assertionsEnabled : bool.

Lemma QPoint2dList_unquantize_at (l : QPoint2dList.t) (i : nat) (q : QPoint2d.t)
    (out : option Point2d.t) :
  QPoint2dList._list l !! i = Some q →
  QPoint2dList.unquantize assertionsEnabled (inject_Z (Z.of_nat i)) out l
  = Return (QPoint2d.unquantize q (QPoint2dList.params l) out, l).
Proof.
  intros Hq. unfold QPoint2dList.unquantize, QPoint2dList.length.
  assert (Hlt : Nat.ltb i (length (QPoint2dList._list l)) = true).
  { apply Nat.ltb_lt. now apply lookup_lt_Some in Hq. }
  rewrite lt_nat, Hlt, assert_holds, array_get_nat, Hq. reflexivity.
Qed.

Lemma QPoint2dList_requantize_map (params' : QParams2d.t) (l : QPoint2dList.t) :
  QPoint2dList.requantize assertionsEnabled params' l
  = Return (QPoint2dList.mk
      (QParams2d.copyFrom params' (QPoint2dList.params l))
      (rebase2d (QPoint2dList.params l) params' <$> QPoint2dList._list l)).
Proof.
  set (f := rebase2d (QPoint2dList.params l) params').
  set (n := length (QPoint2dList._list l)).
  pose (Inv := λ (i : nat) (s : QPoint2dList.t),
    QPoint2dList.params s = QPoint2dList.params l ∧
    length (QPoint2dList._list s) = n ∧
    ∀ j, QPoint2dList._list s !! j
         = if Nat.ltb j i then f <$> (QPoint2dList._list l !! j)
           else QPoint2dList._list l !! j).
  destruct (for_loop_invariant Inv
              (λ i this, Nat.ltb i (QPoint2dList.length this))
              (QPoint2dList.requantize_body assertionsEnabled params') n)
    with (fuel := n) (i := 0%nat) (s := l) as (s' & Hloop & Hp & Hlen & Hlook).
  - intros i s (_ & Hl & _). unfold QPoint2dList.length. now rewrite Hl.
  - intros i s Hi (Hp & Hl & Hlook).
    assert (Hsi : QPoint2dList._list s !! i = QPoint2dList._list l !! i).
    { rewrite Hlook, Nat.ltb_irrefl. reflexivity. }
    destruct (lookup_lt_is_Some_2 (QPoint2dList._list l) i Hi) as [q Hq].
    rewrite Hq in Hsi.
    unfold QPoint2dList.requantize_body.
    rewrite (QPoint2dList_unquantize_at s i q None Hsi). simpl.
    rewrite Hsi, QPoint2d_init_eq. simpl.
    eexists. split; [reflexivity|]. split; [|split]; simpl.
    + exact Hp.
    + now rewrite length_insert.
    + intros j. destruct (Nat.eq_dec i j) as [<-|Hne].
      * rewrite list_lookup_insert_eq by lia.
        assert (Nat.ltb i (i + 1) = true) as -> by (apply Nat.ltb_lt; lia).
        rewrite Hq, Hp. reflexivity.
      * rewrite list_lookup_insert_ne by assumption. rewrite Hlook.
        destruct (Nat.ltb j i) eqn:E1; destruct (Nat.ltb j (i + 1)) eqn:E2;
          try reflexivity.
        -- apply Nat.ltb_lt in E1. apply Nat.ltb_ge in E2. lia.
        -- apply Nat.ltb_ge in E1. apply Nat.ltb_lt in E2. lia.
  - lia.
  - lia.
  - split; [|split]; [reflexivity|reflexivity|]. intros j. reflexivity.
  - unfold QPoint2dList.requantize. change (QPoint2dList.length l) with n.
    rewrite Hloop. simpl. rewrite Hp. f_equal. f_equal.
    apply list_eq. intros j. rewrite Hlook, list_lookup_fmap.
    destruct (Nat.ltb j n) eqn:E; [reflexivity|].
    apply Nat.ltb_ge in E. rewrite (lookup_ge_None_2 _ j) by (fold n; lia).
    reflexivity.
Qed.

Lemma QPoint3dList_unquantize_at (l : QPoint3dList.t) (i : nat) (q : QPoint3d.t)
    (out : option Point3d.t) :
  QPoint3dList._list l !! i = Some q →
  QPoint3dList.unquantize assertionsEnabled (inject_Z (Z.of_nat i)) out l
  = Return (QPoint3d.unquantize q (QPoint3dList.params l) out, l).
Proof.
  intros Hq. unfold QPoint3dList.unquantize, QPoint3dList.length.
  assert (Hlt : Nat.ltb i (length (QPoint3dList._list l)) = true).
  { apply Nat.ltb_lt. now apply lookup_lt_Some in Hq. }
  rewrite lt_nat, Hlt, assert_holds, array_get_nat, Hq. reflexivity.
Qed.

Lemma QPoint3dList_requantize_map (params' : QParams3d.t) (l : QPoint3dList.t) :
  QPoint3dList.requantize assertionsEnabled params' l
  = Return (QPoint3dList.mk
      (QParams3d.copyFrom params' (QPoint3dList.params l))
      (rebase3d (QPoint3dList.params l) params' <$> QPoint3dList._list l)).
Proof.
  set (f := rebase3d (QPoint3dList.params l) params').
  set (n := length (QPoint3dList._list l)).
  pose (Inv := λ (i : nat) (s : QPoint3dList.t),
    QPoint3dList.params s = QPoint3dList.params l ∧
    length (QPoint3dList._list s) = n ∧
    ∀ j, QPoint3dList._list s !! j
         = if Nat.ltb j i then f <$> (QPoint3dList._list l !! j)
           else QPoint3dList._list l !! j).
  destruct (for_loop_invariant Inv
              (λ i this, Nat.ltb i (QPoint3dList.length this))
              (QPoint3dList.requantize_body assertionsEnabled params') n)
    with (fuel := n) (i := 0%nat) (s := l) as (s' & Hloop & Hp & Hlen & Hlook).
  - intros i s (_ & Hl & _). unfold QPoint3dList.length. now rewrite Hl.
  - intros i s Hi (Hp & Hl & Hlook).
    assert (Hsi : QPoint3dList._list s !! i = QPoint3dList._list l !! i).
    { rewrite Hlook, Nat.ltb_irrefl. reflexivity. }
    destruct (lookup_lt_is_Some_2 (QPoint3dList._list l) i Hi) as [q Hq].
    rewrite Hq in Hsi.
    unfold QPoint3dList.requantize_body.
    rewrite (QPoint3dList_unquantize_at s i q None Hsi). simpl.
    rewrite Hsi, QPoint3d_init_eq. simpl.
    eexists. split; [reflexivity|]. split; [|split]; simpl.
    + exact Hp.
    + now rewrite length_insert.
    + intros j. destruct (Nat.eq_dec i j) as [<-|Hne].
      * rewrite list_lookup_insert_eq by lia.
        assert (Nat.ltb i (i + 1) = true) as -> by (apply Nat.ltb_lt; lia).
        rewrite Hq, Hp. reflexivity.
      * rewrite list_lookup_insert_ne by assumption. rewrite Hlook.
        destruct (Nat.ltb j i) eqn:E1; destruct (Nat.ltb j (i + 1)) eqn:E2;
          try reflexivity.
        -- apply Nat.ltb_lt in E1. apply Nat.ltb_ge in E2. lia.
        -- apply Nat.ltb_ge in E1. apply Nat.ltb_lt in E2. lia.
  - lia.
  - lia.
  - split; [|split]; [reflexivity|reflexivity|]. intros j. reflexivity.
  - unfold QPoint3dList.requantize. change (QPoint3dList.length l) with n.
    rewrite Hloop. simpl. rewrite Hp. f_equal. f_equal.
    apply list_eq. intros j. rewrite Hlook, list_lookup_fmap.
    destruct (Nat.ltb j n) eqn:E; [reflexivity|].
    apply Nat.ltb_ge in E. rewrite (lookup_ge_None_2 _ j) by (fold n; lia).
    reflexivity.
Qed.

End Requantize.

(** ** The packed buffer *)

Section TypedArray.

Lemma ToUint16_quantized (q : number) :
  Quantization.isQuantized q = true → inject_Z (ToUint16 q) == q.
Proof.
  intros H. apply isQuantized_true in H as (z & Hq & Hz).
  unfold ToUint16.
  assert (H0 : Qle_bool 0 q = true).
  { apply Qle_bool_iff. rewrite Hq. change 0 with (inject_Z 0). rewrite <- Zle_Qle. lia. }
  rewrite H0, (Qfloor_comp _ _ Hq), Qfloor_Z, Z.mod_small by lia.
  now symmetry.
Qed.

Lemma ToUint16_range (v : number) : (0 <= ToUint16 v < 65536)%Z.
Proof. unfold ToUint16. apply Z.mod_pos_bound. lia. Qed.

Lemma QPoint2dList_toTypedArray_spec (l : QPoint2dList.t) :
  ∃ array : Uint16Array.t,
    QPoint2dList.toTypedArray l = Return array ∧
    length array = (QPoint2dList.length l * 2)%nat ∧
    ∀ i p, QPoint2dList._list l !! i = Some p →
      array !! (i * 2)%nat = Some (ToUint16 (QPoint2d.x p)) ∧
      array !! (i * 2 + 1)%nat = Some (ToUint16 (QPoint2d.y p)).
Proof.
  set (pts := QPoint2dList._list l). set (n := QPoint2dList.length l).
  pose (Inv := λ (i : nat) (a : Uint16Array.t),
    length a = (n * 2)%nat ∧
    ∀ j p, (j < i)%nat → pts !! j = Some p →
      a !! (j * 2)%nat = Some (ToUint16 (QPoint2d.x p)) ∧
      a !! (j * 2 + 1)%nat = Some (ToUint16 (QPoint2d.y p))).
  destruct (for_loop_invariant Inv (λ i _, Nat.ltb i n)
              (QPoint2dList.toTypedArray_body pts) n)
    with (fuel := n) (i := 0%nat) (s := Uint16Array.new (n * 2))
    as (a & Hloop & Hlen & Hlook).
  - reflexivity.
  - intros i a Hi [Hlen Hlook].
    destruct (lookup_lt_is_Some_2 pts i Hi) as [p Hp].
    unfold QPoint2dList.toTypedArray_body, Uint16Array.set. rewrite Hp.
    eexists. split; [reflexivity|]. split.
    + now rewrite !length_insert.
    + intros j p' Hj Hp'. destruct (Nat.eq_dec j i) as [->|Hne].
      * assert (p' = p) as -> by congruence. split.
        -- rewrite list_lookup_insert_ne by lia.
           apply list_lookup_insert_eq. lia.
        -- apply list_lookup_insert_eq. rewrite length_insert. lia.
      * destruct (Hlook j p') as [Hx Hy]; [lia|assumption|].
        rewrite !list_lookup_insert_ne by lia. auto.
  - lia.
  - lia.
  - split; [apply length_replicate|]. intros j p Hj. lia.
  - exists a. split; [exact Hloop|]. split; [exact Hlen|].
    intros i p Hp. apply (Hlook i p); [|exact Hp].
    apply lookup_lt_Some in Hp. exact Hp.
Qed.

Lemma QPoint3dList_toTypedArray_spec (l : QPoint3dList.t) :
  ∃ array : Uint16Array.t,
    QPoint3dList.toTypedArray l = Return array ∧
    length array = (QPoint3dList.length l * 3)%nat ∧
    ∀ i p, QPoint3dList._list l !! i = Some p →
      array !! (i * 3)%nat = Some (ToUint16 (QPoint3d.x p)) ∧
      array !! (i * 3 + 1)%nat = Some (ToUint16 (QPoint3d.y p)) ∧
      array !! (i * 3 + 2)%nat = Some (ToUint16 (QPoint3d.z p)).
Proof.
  set (pts := QPoint3dList._list l). set (n := QPoint3dList.length l).
  pose (Inv := λ (i : nat) (a : Uint16Array.t),
    length a = (n * 3)%nat ∧
    ∀ j p, (j < i)%nat → pts !! j = Some p →
      a !! (j * 3)%nat = Some (ToUint16 (QPoint3d.x p)) ∧
      a !! (j * 3 + 1)%nat = Some (ToUint16 (QPoint3d.y p)) ∧
      a !! (j * 3 + 2)%nat = Some (ToUint16 (QPoint3d.z p))).
  destruct (for_loop_invariant Inv (λ i _, Nat.ltb i n)
              (QPoint3dList.toTypedArray_body pts) n)
    with (fuel := n) (i := 0%nat) (s := Uint16Array.new (n * 3))
    as (a & Hloop & Hlen & Hlook).
  - reflexivity.
  - intros i a Hi [Hlen Hlook].
    destruct (lookup_lt_is_Some_2 pts i Hi) as [p Hp].
    unfold QPoint3dList.toTypedArray_body, Uint16Array.set. rewrite Hp.
    rewrite Nat.add_0_r.
    eexists. split; [reflexivity|]. split.
    + now rewrite !length_insert.
    + intros j p' Hj Hp'. destruct (Nat.eq_dec j i) as [->|Hne].
      * assert (p' = p) as -> by congruence. split; [|split].
        -- rewrite !list_lookup_insert_ne by lia.
           apply list_lookup_insert_eq. lia.
        -- rewrite list_lookup_insert_ne by lia.
           apply list_lookup_insert_eq. rewrite length_insert. lia.
        -- apply list_lookup_insert_eq. rewrite !length_insert. lia.
      * destruct (Hlook j p') as (Hx & Hy & Hz); [lia|assumption|].
        rewrite !list_lookup_insert_ne by lia. auto.
  - lia.
  - lia.
  - split; [apply length_replicate|]. intros j p Hj. lia.
  - exists a. split; [exact Hloop|]. split; [exact Hlen|].
    intros i p Hp. apply (Hlook i p); [|exact Hp].
    apply lookup_lt_Some in Hp. exact Hp.
Qed.

End TypedArray.

(** ** Records built from a range *)

Section RecordFromRange.

(** On each axis of a record built from a range that is not null, the
    origin is the low corner and the scale is [computeScale] of the
    extent; a null range gives the zero record. *)
Lemma QParams2d_fromRange_axes (range : Range2d.t) (out : option QParams2d.t) :
  Range2d.isNull range = false →
  QParams2d.fromRange range out
  = QParams2d.mk (Range2d.low range)
      (Point2d.create
         (Quantization.computeScale (Point2d.x (Range2d.high range) - Point2d.x (Range2d.low range)))
         (Quantization.computeScale (Point2d.y (Range2d.high range) - Point2d.y (Range2d.low range)))).
Proof.
  intros H. unfold QParams2d.fromRange, QParams2d.setFromRange. rewrite H.
  destruct range as [[lx ly] high null]. reflexivity.
Qed.

Lemma QParams2d_fromRange_null (range : Range2d.t) (out : option QParams2d.t) :
  Range2d.isNull range = true →
  QParams2d.fromRange range out = QParams2d.mk (Point2d.create 0 0) (Point2d.create 0 0).
Proof.
  intros H. unfold QParams2d.fromRange, QParams2d.setFromRange. now rewrite H.
Qed.

Lemma QParams3d_fromRange_axes (range : Range3d.t) (out : option QParams3d.t) :
  Range3d.isNull range = false →
  QParams3d.fromRange range out
  = QParams3d.mk (Range3d.low range)
      (Point3d.create
         (Quantization.computeScale (Point3d.x (Range3d.high range) - Point3d.x (Range3d.low range)))
         (Quantization.computeScale (Point3d.y (Range3d.high range) - Point3d.y (Range3d.low range)))
         (Quantization.computeScale (Point3d.z (Range3d.high range) - Point3d.z (Range3d.low range)))).
Proof.
  intros H. unfold QParams3d.fromRange, QParams3d.setFromRange. rewrite H.
  destruct range as [[lx ly lz] high null]. reflexivity.
Qed.

Lemma QParams3d_fromRange_null (range : Range3d.t) (out : option QParams3d.t) :
  Range3d.isNull range = true →
  QParams3d.fromRange range out
  = QParams3d.mk (Point3d.create 0 0 0) (Point3d.create 0 0 0).
Proof.
  intros H. unfold QParams3d.fromRange, QParams3d.setFromRange. now rewrite H.
Qed.


End RecordFromRange.

(** * The properties of the specification *)


(** C3, as stated, fails: 65535.5 passes [isInRange] although it is above
    65535. *)
Lemma isInRange_closed_counterexample :
  ¬ (Quantization.isInRange (131071 # 2) = true ↔ 0 <= 131071 # 2 ∧ 131071 # 2 <= 65535).
Proof.
  intros [H _]. destruct (H eq_refl) as [_ Hle]. revert Hle. apply Qlt_not_le. reflexivity.
Qed.

(** C3, amended. [isInRange q] holds exactly when [0 <= q < 65536]; for an
    integer [q] that is [0 <= q <= 65535]. *)
Theorem isInRange_half_open :
  (∀ q : number, Quantization.isInRange q = true ↔ 0 <= q ∧ q < 65536) ∧
  (∀ z : Z, Quantization.isInRange (inject_Z z) = true ↔ (0 <= z <= 65535)%Z).
Proof.
  split.
  - apply isInRange_true.
  - intros z. rewrite isInRange_true.
    change 0 with (inject_Z 0). change 65536 with (inject_Z 65536).
    rewrite <- Zle_Qle, <- Zlt_Qlt. lia.
Qed.








Lemma degenerate_axis_scalar (low high origin : number) :
  axis_degenerate low high origin (Quantization.computeScale (high - low)).
Proof.
  intros He. split; [now apply computeScale_zero|].
  intros q. apply unquantize_zero. now apply computeScale_zero.
Qed.

Lemma degenerate_axis_null (low high : number) : axis_degenerate low high 0 0.
Proof. intros _. split; reflexivity. Qed.

(** C8. Degenerate range: an axis of zero extent gets scale 0, from
    [computeScale] and in every record built from a range, and [unquantize]
    on that axis (with that scale, or with scale 0) returns the origin
    whatever the stored integer. *)
Theorem degenerate_axis :
  (∀ low high origin : number,
     axis_degenerate low high origin (Quantization.computeScale (high - low))) ∧
  (∀ q origin : number, Quantization.unquantize q origin 0 = origin) ∧
  (∀ (range : Range2d.t) (out : option QParams2d.t),
     let params := QParams2d.fromRange range out in
     axis_degenerate (Point2d.x (Range2d.low range)) (Point2d.x (Range2d.high range))
       (Point2d.x (QParams2d.origin params)) (Point2d.x (QParams2d.scale params)) ∧
     axis_degenerate (Point2d.y (Range2d.low range)) (Point2d.y (Range2d.high range))
       (Point2d.y (QParams2d.origin params)) (Point2d.y (QParams2d.scale params))) ∧
  (∀ (range : Range3d.t) (out : option QParams3d.t),
     let params := QParams3d.fromRange range out in
     axis_degenerate (Point3d.x (Range3d.low range)) (Point3d.x (Range3d.high range))
       (Point3d.x (QParams3d.origin params)) (Point3d.x (QParams3d.scale params)) ∧
     axis_degenerate (Point3d.y (Range3d.low range)) (Point3d.y (Range3d.high range))
       (Point3d.y (QParams3d.origin params)) (Point3d.y (QParams3d.scale params)) ∧
     axis_degenerate (Point3d.z (Range3d.low range)) (Point3d.z (Range3d.high range))
       (Point3d.z (QParams3d.origin params)) (Point3d.z (QParams3d.scale params))).
Proof.
  split; [exact degenerate_axis_scalar|]. split; [reflexivity|]. split.
  - intros range out. cbv zeta. destruct (Range2d.isNull range) eqn:Hnull.
    + rewrite (QParams2d_fromRange_null range out Hnull). simpl.
      split; apply degenerate_axis_null.
    + rewrite (QParams2d_fromRange_axes range out Hnull). simpl.
      split; apply degenerate_axis_scalar.
  - intros range out. cbv zeta. destruct (Range3d.isNull range) eqn:Hnull.
    + rewrite (QParams3d_fromRange_null range out Hnull). simpl.
      split; [|split]; apply degenerate_axis_null.
    + rewrite (QParams3d_fromRange_axes range out Hnull). simpl.
      split; [|split]; apply degenerate_axis_scalar.
Qed.

Lemma degenerate_axis_witness :
  let params := QParams3d.fromRange flat_range3d None in
  Point3d.x (QParams3d.scale params) == 0 ∧
  Quantization.unquantize 40000 (Point3d.x (QParams3d.origin params))
    (Point3d.x (QParams3d.scale params)) = 1.
Proof.
  destruct (proj1 (proj2 (proj2 (proj2 degenerate_axis)) flat_range3d None) eq_refl)
    as [Hs Hu].
  split; [exact Hs|exact (Hu 40000)].
Defined.

(** ** Re-basing onto the same record, per component *)

Section RebaseSame.


(** What [add] stores on an axis of zero scale. *)
Lemma quantize_zero_scale (pos origin scale : number) :
  scale == 0 → Quantization.quantize pos origin scale = 0.
Proof. intros H. apply quantize_low. rewrite H. lra. Qed.

Lemma keeps_axis_quantize (pos origin scale : number) :
  keeps_axis scale (Quantization.quantize pos origin scale).
Proof. intros H. rewrite quantize_zero_scale by assumption. lra. Qed.

(** [add] stores a point that satisfies the invariant and that re-basing
    keeps. *)
Lemma QPoint2dList_add_eq (assertionsEnabled : bool) (pt : Point2d.t) (l : QPoint2dList.t) :
  ∃ q, QPoint2dList.add assertionsEnabled pt l
       = Return (QPoint2dList.mk (QPoint2dList.params l) (QPoint2dList._list l ++ [q])) ∧
    QPoint2d_valid q ∧ keeps2d (QPoint2dList.params l) q.
Proof.
  unfold QPoint2dList.add, QPoint2d.create. rewrite QPoint2d_init_eq.
  eexists. split; [reflexivity|]. split.
  - split; apply isQuantized_quantize.
  - split; apply keeps_axis_quantize.
Qed.

Lemma QPoint3dList_add_eq (assertionsEnabled : bool) (pt : Point3d.t) (l : QPoint3dList.t) :
  ∃ q, QPoint3dList.add assertionsEnabled pt l
       = Return (QPoint3dList.mk (QPoint3dList.params l) (QPoint3dList._list l ++ [q])) ∧
    QPoint3d_valid q ∧ keeps3d (QPoint3dList.params l) q.
Proof.
  unfold QPoint3dList.add, QPoint3d.create. rewrite QPoint3d_init_eq.
  eexists. split; [reflexivity|]. split.
  - repeat split; apply isQuantized_quantize.
  - repeat split; apply keeps_axis_quantize.
Qed.

End RebaseSame.






(** The scenarios evaluate to the lists named above. *)
Lemma added_list2d_eq : added_list2d = Return ten_list2d.
Proof. vm_compute. reflexivity. Qed.

Lemma added_list3d_eq : added_list3d = Return flat_list3d.
Proof. vm_compute. reflexivity. Qed.

(** ** Every element of the packed buffer is a 16-bit unsigned integer *)

Section BufferElements.

Lemma QPoint2dList_toTypedArray_uint16 (l : QPoint2dList.t) (array : Uint16Array.t) :
  QPoint2dList.toTypedArray l = Return array → Forall is_uint16 array.
Proof.
  intros Hrun.
  destruct (QPoint2dList_toTypedArray_spec l) as (a & Ha & Hlen & Hlook).
  rewrite Hrun in Ha. injection Ha as <-.
  apply Forall_lookup. intros k e Hk.
  pose proof (lookup_lt_Some _ _ _ Hk) as Hlt. rewrite Hlen in Hlt.
  pose proof (Nat.div_mod_eq k 2) as Hdm.
  pose proof (Nat.mod_upper_bound k 2 ltac:(lia)) as Hm.
  assert (Hj : (k / 2 < QPoint2dList.length l)%nat) by lia.
  destruct (lookup_lt_is_Some_2 (QPoint2dList._list l) (k / 2) Hj) as [p Hp].
  destruct (Hlook _ _ Hp) as [Hx Hy].
  assert (Hcase : k = (k / 2 * 2)%nat ∨ k = (k / 2 * 2 + 1)%nat) by lia.
  destruct Hcase as [E|E]; rewrite <- E in *;
    assert (e = ToUint16 (QPoint2d.x p) ∨ e = ToUint16 (QPoint2d.y p)) as [->| ->]
      by (first [ left; congruence | right; congruence ]);
    apply ToUint16_range.
Qed.

Lemma QPoint3dList_toTypedArray_uint16 (l : QPoint3dList.t) (array : Uint16Array.t) :
  QPoint3dList.toTypedArray l = Return array → Forall is_uint16 array.
Proof.
  intros Hrun.
  destruct (QPoint3dList_toTypedArray_spec l) as (a & Ha & Hlen & Hlook).
  rewrite Hrun in Ha. injection Ha as <-.
  apply Forall_lookup. intros k e Hk.
  pose proof (lookup_lt_Some _ _ _ Hk) as Hlt. rewrite Hlen in Hlt.
  pose proof (Nat.div_mod_eq k 3) as Hdm.
  pose proof (Nat.mod_upper_bound k 3 ltac:(lia)) as Hm.
  assert (Hj : (k / 3 < QPoint3dList.length l)%nat) by lia.
  destruct (lookup_lt_is_Some_2 (QPoint3dList._list l) (k / 3) Hj) as [p Hp].
  destruct (Hlook _ _ Hp) as (Hx & Hy & Hz).
  assert (Hcase : k = (k / 3 * 3)%nat ∨ k = (k / 3 * 3 + 1)%nat ∨ k = (k / 3 * 3 + 2)%nat)
    by lia.
  destruct Hcase as [E|[E|E]]; rewrite <- E in *;
    assert (e = ToUint16 (QPoint3d.x p) ∨ e = ToUint16 (QPoint3d.y p)
            ∨ e = ToUint16 (QPoint3d.z p)) as [->|[->| ->]]
      by (first [ left; congruence | right; left; congruence | right; right; congruence ]);
    apply ToUint16_range.
Qed.

End BufferElements.

(** C6. For a list whose points satisfy the invariant, [toTypedArray]
    returns a buffer of 16-bit unsigned integers of length
    [length * axisCount] (2 and 3), in which element [i * axisCount + k] is
    component [k] of the [i]-th point: x, y (, z) of the points in list
    order. *)
Theorem toTypedArray_interleaved :
  (∀ l : QPoint2dList.t, Forall QPoint2d_valid (QPoint2dList._list l) →
     ∃ array : Uint16Array.t,
       QPoint2dList.toTypedArray l = Return array ∧
       length array = (QPoint2dList.length l * 2)%nat ∧
       Forall is_uint16 array ∧
       ∀ i p, QPoint2dList._list l !! i = Some p →
         ∃ ex ey, array !! (i * 2)%nat = Some ex ∧ array !! (i * 2 + 1)%nat = Some ey ∧
           inject_Z ex == QPoint2d.x p ∧ inject_Z ey == QPoint2d.y p) ∧
  (∀ l : QPoint3dList.t, Forall QPoint3d_valid (QPoint3dList._list l) →
     ∃ array : Uint16Array.t,
       QPoint3dList.toTypedArray l = Return array ∧
       length array = (QPoint3dList.length l * 3)%nat ∧
       Forall is_uint16 array ∧
       ∀ i p, QPoint3dList._list l !! i = Some p →
         ∃ ex ey ez, array !! (i * 3)%nat = Some ex ∧ array !! (i * 3 + 1)%nat = Some ey ∧
           array !! (i * 3 + 2)%nat = Some ez ∧
           inject_Z ex == QPoint3d.x p ∧ inject_Z ey == QPoint3d.y p ∧
           inject_Z ez == QPoint3d.z p).
Proof.
  split.
  - intros l Hvalid.
    destruct (QPoint2dList_toTypedArray_spec l) as (a & Ha & Hlen & Hlook).
    exists a. split; [exact Ha|]. split; [exact Hlen|].
    split; [now apply (QPoint2dList_toTypedArray_uint16 l)|].
    intros i p Hp. destruct (Hlook i p Hp) as [Hx Hy].
    destruct (proj1 (Forall_lookup _ _) Hvalid i p Hp) as [Hvx Hvy].
    exists (ToUint16 (QPoint2d.x p)), (ToUint16 (QPoint2d.y p)).
    repeat split; try assumption; now apply ToUint16_quantized.
  - intros l Hvalid.
    destruct (QPoint3dList_toTypedArray_spec l) as (a & Ha & Hlen & Hlook).
    exists a. split; [exact Ha|]. split; [exact Hlen|].
    split; [now apply (QPoint3dList_toTypedArray_uint16 l)|].
    intros i p Hp. destruct (Hlook i p Hp) as (Hx & Hy & Hz).
    destruct (proj1 (Forall_lookup _ _) Hvalid i p Hp) as (Hvx & Hvy & Hvz).
    exists (ToUint16 (QPoint3d.x p)), (ToUint16 (QPoint3d.y p)), (ToUint16 (QPoint3d.z p)).
    repeat split; try assumption; now apply ToUint16_quantized.
Qed.

Lemma toTypedArray_interleaved_witness :
  ∃ array : Uint16Array.t,
    QPoint3dList.toTypedArray flat_list3d = Return array ∧
    length array = (QPoint3dList.length flat_list3d * 3)%nat ∧
    Forall is_uint16 array ∧
    ∀ i p, QPoint3dList._list flat_list3d !! i = Some p →
      ∃ ex ey ez, array !! (i * 3)%nat = Some ex ∧ array !! (i * 3 + 1)%nat = Some ey ∧
        array !! (i * 3 + 2)%nat = Some ez ∧
        inject_Z ex == QPoint3d.x p ∧ inject_Z ey == QPoint3d.y p ∧
        inject_Z ez == QPoint3d.z p.
Proof.
  apply (proj2 toTypedArray_interleaved flat_list3d).
  repeat constructor; reflexivity.
Defined.

(** C9. With an index at or beyond the length, the list's [unquantize]
    does not throw when assertions are disabled: it returns the output
    point it was given, or a new zero point, and leaves the list as it was.
    With assertions enabled, its assertion fires. *)
Theorem list_unquantize_out_of_range :
  (∀ (l : QPoint2dList.t) (index : number) (out : option Point2d.t),
     inject_Z (Z.of_nat (QPoint2dList.length l)) <= index →
     QPoint2dList.unquantize false index out l = Return (default Point2d.new out, l) ∧
     QPoint2dList.unquantize false index None l = Return (Point2d.create 0 0, l) ∧
     QPoint2dList.unquantize true index out l = Throw AssertionError) ∧
  (∀ (l : QPoint3dList.t) (index : number) (out : option Point3d.t),
     inject_Z (Z.of_nat (QPoint3dList.length l)) <= index →
     QPoint3dList.unquantize false index out l = Return (default Point3d.new out, l) ∧
     QPoint3dList.unquantize false index None l = Return (Point3d.create 0 0 0, l) ∧
     QPoint3dList.unquantize true index out l = Throw AssertionError).
Proof.
  split; intros l index out Hge; apply lt_false in Hge;
    unfold QPoint2dList.unquantize, QPoint3dList.unquantize; rewrite Hge;
    repeat split; reflexivity.
Qed.

Lemma list_unquantize_out_of_range_witness :
  QPoint2dList.unquantize false 2 None ten_list2d = Return (Point2d.create 0 0, ten_list2d) ∧
  QPoint3dList.unquantize false 7 (Some (Point3d.create 4 5 6)) flat_list3d
    = Return (Point3d.create 4 5 6, flat_list3d).
Proof.
  split.
  - apply (proj1 list_unquantize_out_of_range ten_list2d 2 None). discriminate.
  - apply (proj2 list_unquantize_out_of_range flat_list3d 7 (Some (Point3d.create 4 5 6))).
    discriminate.
Defined.


(** * Further properties of the module *)

(** ** The scalar functions *)


(** X2. [isQuantized] accepts exactly the integers from 0 to 65535: a
    fraction is refused even inside the interval that [isInRange] accepts. *)
Theorem isQuantized_grid (q : number) :
  (Quantization.isQuantized q = true ↔ ∃ z : Z, q == inject_Z z ∧ (0 <= z <= 65535)%Z) ∧
  (Quantization.isQuantized q = true → Quantization.isInRange q = true) ∧
  (¬ q == Math.floor q → Quantization.isQuantized q = false).
Proof.
  split; [apply isQuantized_true|]. split.
  - unfold Quantization.isQuantized. intros H. now apply andb_true_iff in H as [H _].
  - intros Hn. unfold Quantization.isQuantized.
    destruct (JS.strict_eq q (Math.floor q)) eqn:E.
    + apply strict_eq_true in E. contradiction.
    + apply andb_false_r.
Qed.

Lemma isQuantized_grid_witness :
  Quantization.isInRange 7 = true ∧ Quantization.isQuantized (1 # 2) = false.
Proof.
  split.
  - apply (proj1 (proj2 (isQuantized_grid 7))). reflexivity.
  - apply (proj2 (proj2 (isQuantized_grid (1 # 2)))). discriminate.
Defined.















(** ** Records and points *)

(** X8. Copies of a record: [copyFrom] makes the receiver equal to the
    source, [clone] returns a record equal to the original, and [fromRange]
    returns the same record, whatever the receiving or output record
    held. *)
Theorem qparams_copies :
  (∀ src this : QParams2d.t, QParams2d.copyFrom src this = src) ∧
  (∀ (this : QParams2d.t) (out : option QParams2d.t), QParams2d.clone this out = this) ∧
  (∀ (range : Range2d.t) (out : option QParams2d.t),
     QParams2d.fromRange range out = QParams2d.fromRange range None) ∧
  (∀ src this : QParams3d.t, QParams3d.copyFrom src this = src) ∧
  (∀ (this : QParams3d.t) (out : option QParams3d.t), QParams3d.clone this out = this) ∧
  (∀ (range : Range3d.t) (out : option QParams3d.t),
     QParams3d.fromRange range out = QParams3d.fromRange range None).
Proof.
  split; [|split; [|split; [|split; [|split]]]].
  - intros [[ox oy] [sx sy]] this. reflexivity.
  - intros [[ox oy] [sx sy]] out. reflexivity.
  - intros range out. destruct (Range2d.isNull range) eqn:E.
    + now rewrite !QParams2d_fromRange_null.
    + now rewrite !QParams2d_fromRange_axes.
  - intros [[ox oy oz] [sx sy sz]] this. reflexivity.
  - intros [[ox oy oz] [sx sy sz]] out. reflexivity.
  - intros range out. destruct (Range3d.isNull range) eqn:E.
    + now rewrite !QParams3d_fromRange_null.
    + now rewrite !QParams3d_fromRange_axes.
Qed.

(** With assertions enabled [clone] checks every component of its source. *)
Lemma QPoint2d_clone_enabled (p : QPoint2d.t) (out : option QPoint2d.t) :
  QPoint2d.clone true p out
  = if Quantization.isQuantized (QPoint2d.x p) && Quantization.isQuantized (QPoint2d.y p)
    then Return p else Throw AssertionError.
Proof.
  destruct p as [x y].
  unfold QPoint2d.clone, QPoint2d.copyFrom, QPoint2d.set_x, QPoint2d.set_y,
    QPoint2d.x, QPoint2d.y, assert.
  cbn [QPoint2d._x QPoint2d._y].
  destruct (Quantization.isQuantized x); destruct (Quantization.isQuantized y); reflexivity.
Qed.

Lemma QPoint3d_clone_enabled (p : QPoint3d.t) (out : option QPoint3d.t) :
  QPoint3d.clone true p out
  = if Quantization.isQuantized (QPoint3d.x p) && Quantization.isQuantized (QPoint3d.y p)
       && Quantization.isQuantized (QPoint3d.z p)
    then Return p else Throw AssertionError.
Proof.
  destruct p as [x y z].
  unfold QPoint3d.clone, QPoint3d.copyFrom, QPoint3d.set_x, QPoint3d.set_y, QPoint3d.set_z,
    QPoint3d.x, QPoint3d.y, QPoint3d.z, assert.
  cbn [QPoint3d._x QPoint3d._y QPoint3d._z].
  destruct (Quantization.isQuantized x); destruct (Quantization.isQuantized y);
    destruct (Quantization.isQuantized z); reflexivity.
Qed.

(** X9. The setters guard the point.  With assertions enabled,
    [setFromScalars] and [fromScalars] return the point of the given
    components exactly when every component is an integer of the grid and
    throw the assertion error otherwise, and so do [copyFrom] and [clone]
    for the components of their source; with assertions disabled they
    store the components unchecked. *)
Theorem qpoint_setters_guard :
  (∀ (x y : number) (this : QPoint2d.t),
     QPoint2d.setFromScalars true x y this
     = (if Quantization.isQuantized x && Quantization.isQuantized y
        then Return (QPoint2d.mk x y) else Throw AssertionError) ∧
     QPoint2d.fromScalars true x y = QPoint2d.setFromScalars true x y this ∧
     QPoint2d.copyFrom true (QPoint2d.mk x y) this = QPoint2d.setFromScalars true x y this ∧
     QPoint2d.clone true (QPoint2d.mk x y) (Some this) = QPoint2d.setFromScalars true x y this ∧
     QPoint2d.setFromScalars false x y this = Return (QPoint2d.mk x y)) ∧
  (∀ (x y z : number) (this : QPoint3d.t),
     QPoint3d.setFromScalars true x y z this
     = (if Quantization.isQuantized x && Quantization.isQuantized y && Quantization.isQuantized z
        then Return (QPoint3d.mk x y z) else Throw AssertionError) ∧
     QPoint3d.fromScalars true x y z = QPoint3d.setFromScalars true x y z this ∧
     QPoint3d.copyFrom true (QPoint3d.mk x y z) this = QPoint3d.setFromScalars true x y z this ∧
     QPoint3d.clone true (QPoint3d.mk x y z) (Some this)
     = QPoint3d.setFromScalars true x y z this ∧
     QPoint3d.setFromScalars false x y z this = Return (QPoint3d.mk x y z)).
Proof.
  split.
  - intros x y this.
    unfold QPoint2d.fromScalars, QPoint2d.clone, QPoint2d.copyFrom, QPoint2d.setFromScalars,
      QPoint2d.set_x, QPoint2d.set_y, QPoint2d.x, QPoint2d.y, assert.
    cbn [QPoint2d._x QPoint2d._y default].
    destruct (Quantization.isQuantized x); destruct (Quantization.isQuantized y);
      repeat split; reflexivity.
  - intros x y z this.
    unfold QPoint3d.fromScalars, QPoint3d.clone, QPoint3d.copyFrom, QPoint3d.setFromScalars,
      QPoint3d.set_x, QPoint3d.set_y, QPoint3d.set_z, QPoint3d.x, QPoint3d.y, QPoint3d.z,
      assert.
    cbn [QPoint3d._x QPoint3d._y QPoint3d._z default].
    destruct (Quantization.isQuantized x); destruct (Quantization.isQuantized y);
      destruct (Quantization.isQuantized z); repeat split; reflexivity.
Qed.



(** X11. The record of a null range collapses everything: every position
    is quantized to the point of zeros and every quantized point is
    dequantized to the zero point. *)
Theorem null_range_collapses (assertionsEnabled : bool) :
  (∀ (range : Range2d.t) (out : option QParams2d.t) (pos : Point2d.t) (q : QPoint2d.t)
     (outp : option Point2d.t),
     Range2d.isNull range = true →
     QPoint2d.create assertionsEnabled pos (QParams2d.fromRange range out)
     = Return (QPoint2d.mk 0 0) ∧
     QPoint2d.unquantize q (QParams2d.fromRange range out) outp = Point2d.create 0 0) ∧
  (∀ (range : Range3d.t) (out : option QParams3d.t) (pos : Point3d.t) (q : QPoint3d.t)
     (outp : option Point3d.t),
     Range3d.isNull range = true →
     QPoint3d.create assertionsEnabled pos (QParams3d.fromRange range out)
     = Return (QPoint3d.mk 0 0 0) ∧
     QPoint3d.unquantize q (QParams3d.fromRange range out) outp = Point3d.create 0 0 0).
Proof.
  split.
  - intros range out pos q outp Hnull.
    rewrite (QParams2d_fromRange_null range out Hnull).
    unfold QPoint2d.create. rewrite QPoint2d_init_eq. simpl.
    rewrite !quantize_zero_scale by reflexivity. split; reflexivity.
  - intros range out pos q outp Hnull.
    rewrite (QParams3d_fromRange_null range out Hnull).
    unfold QPoint3d.create. rewrite QPoint3d_init_eq. simpl.
    rewrite !quantize_zero_scale by reflexivity. split; reflexivity.
Qed.

Lemma null_range_collapses_witness :
  QPoint2d.create true (Point2d.create 3 7)
    (QParams2d.fromRange (Range2d.mk (Point2d.create 0 0) (Point2d.create 10 10) true) None)
  = Return (QPoint2d.mk 0 0).
Proof.
  apply (proj1 (null_range_collapses true)
           (Range2d.mk (Point2d.create 0 0) (Point2d.create 10 10) true) None
           (Point2d.create 3 7) QPoint2d.new None eq_refl).
Defined.

(** ** Lists: growing and reading *)


(** X13. [push] stores a copy of a point that satisfies the invariant at
    the end of the list; with assertions enabled a point that breaks the
    invariant is refused with the assertion error. *)
Theorem list_push_appends :
  (∀ (assertionsEnabled : bool) (qpt : QPoint2d.t) (l : QPoint2dList.t),
     (QPoint2d_valid qpt →
        QPoint2dList.push assertionsEnabled qpt l
        = Return (QPoint2dList.mk (QPoint2dList.params l) (QPoint2dList._list l ++ [qpt]))) ∧
     (¬ QPoint2d_valid qpt → QPoint2dList.push true qpt l = Throw AssertionError)) ∧
  (∀ (assertionsEnabled : bool) (qpt : QPoint3d.t) (l : QPoint3dList.t),
     (QPoint3d_valid qpt →
        QPoint3dList.push assertionsEnabled qpt l
        = Return (QPoint3dList.mk (QPoint3dList.params l) (QPoint3dList._list l ++ [qpt]))) ∧
     (¬ QPoint3d_valid qpt → QPoint3dList.push true qpt l = Throw AssertionError)).
Proof.
  split; intros ae qpt l; split.
  - intros Hv. unfold QPoint2dList.push, QPoint2d.clone.
    now rewrite (QPoint2d_copyFrom_eq ae qpt _ Hv).
  - intros Hn. unfold QPoint2dList.push. rewrite QPoint2d_clone_enabled.
    destruct (Quantization.isQuantized (QPoint2d.x qpt)) eqn:Ex;
      destruct (Quantization.isQuantized (QPoint2d.y qpt)) eqn:Ey; try reflexivity.
    exfalso. apply Hn. now split.
  - intros Hv. unfold QPoint3dList.push, QPoint3d.clone.
    now rewrite (QPoint3d_copyFrom_eq ae qpt _ Hv).
  - intros Hn. unfold QPoint3dList.push. rewrite QPoint3d_clone_enabled.
    destruct (Quantization.isQuantized (QPoint3d.x qpt)) eqn:Ex;
      destruct (Quantization.isQuantized (QPoint3d.y qpt)) eqn:Ey;
      destruct (Quantization.isQuantized (QPoint3d.z qpt)) eqn:Ez; try reflexivity.
    exfalso. apply Hn. now repeat split.
Qed.

Lemma list_push_appends_witness :
  QPoint2dList.push true (QPoint2d.mk 7 9) ten_list2d
  = Return (QPoint2dList.mk (QPoint2dList.params ten_list2d)
              (QPoint2dList._list ten_list2d ++ [QPoint2d.mk 7 9])) ∧
  QPoint3dList.push true (QPoint3d.mk 7 (1 # 2) 70000) flat_list3d = Throw AssertionError.
Proof.
  split.
  - apply (proj1 (proj1 list_push_appends true (QPoint2d.mk 7 9) ten_list2d)).
    split; reflexivity.
  - apply (proj2 (proj2 list_push_appends true (QPoint3d.mk 7 (1 # 2) 70000) flat_list3d)).
    intros (_ & H & _). discriminate H.
Defined.


(** An index that is negative or not an integer reads [undefined]. *)
Lemma array_get_no_index {A : Type} (a : list A) (index : number) :
  index < 0 ∨ ¬ index == Math.floor index → array_get a index = None.
Proof.
  intros [Hneg|Hfrac]; unfold array_get.
  - assert (H0 : Qle_bool 0 index = false).
    { destruct (Qle_bool 0 index) eqn:E; [|reflexivity].
      apply Qle_bool_iff in E. lra. }
    now rewrite H0.
  - assert (H1 : JS.strict_eq index (Math.floor index) = false).
    { destruct (JS.strict_eq index (Math.floor index)) eqn:E; [|reflexivity].
      apply strict_eq_true in E. contradiction. }
    now rewrite H1, andb_false_r.
Qed.



(** X15. The bounds check looks at the upper bound only: a negative index,
    or an index below the length that is not an integer, passes it and the
    call then fails with a type error, with assertions enabled or not. *)
Theorem list_unquantize_bad_index (assertionsEnabled : bool) :
  (∀ (l : QPoint2dList.t) (index : number) (out : option Point2d.t),
     index < inject_Z (Z.of_nat (QPoint2dList.length l)) →
     index < 0 ∨ ¬ index == Math.floor index →
     QPoint2dList.unquantize assertionsEnabled index out l = Throw TypeError) ∧
  (∀ (l : QPoint3dList.t) (index : number) (out : option Point3d.t),
     index < inject_Z (Z.of_nat (QPoint3dList.length l)) →
     index < 0 ∨ ¬ index == Math.floor index →
     QPoint3dList.unquantize assertionsEnabled index out l = Throw TypeError).
Proof.
  split; intros l index out Hlt Hbad; apply lt_true in Hlt.
  - unfold QPoint2dList.unquantize.
    now rewrite Hlt, assert_holds, (array_get_no_index _ _ Hbad).
  - unfold QPoint3dList.unquantize.
    now rewrite Hlt, assert_holds, (array_get_no_index _ _ Hbad).
Qed.

Lemma list_unquantize_bad_index_witness :
  QPoint2dList.unquantize true (-(1)) None ten_list2d = Throw TypeError ∧
  QPoint3dList.unquantize false (1 # 2) None flat_list3d = Throw TypeError.
Proof.
  split.
  - apply (proj1 (list_unquantize_bad_index true) ten_list2d (-(1)) None).
    + reflexivity.
    + left. reflexivity.
  - apply (proj2 (list_unquantize_bad_index false) flat_list3d (1 # 2) None).
    + reflexivity.
    + right. discriminate.
Defined.



(** ** Lists: the packed buffer as a whole *)

Section PackedBuffer.

Lemma packed2d_lookup (l : list QPoint2d.t) (i : nat) (p : QPoint2d.t) :
  l !! i = Some p →
  flat_map packed2d l !! (i * 2)%nat = Some (ToUint16 (QPoint2d.x p)) ∧
  flat_map packed2d l !! (i * 2 + 1)%nat = Some (ToUint16 (QPoint2d.y p)).
Proof.
  revert i. induction l as [|a l IH]; intros i Hp; [discriminate|].
  destruct i as [|i]; simpl in *.
  - injection Hp as ->. split; reflexivity.
  - apply IH. exact Hp.
Qed.

Lemma packed2d_length (l : list QPoint2d.t) :
  length (flat_map packed2d l) = (length l * 2)%nat.
Proof. induction l as [|a l IH]; simpl; [reflexivity|]. now rewrite IH. Qed.

Lemma packed3d_lookup (l : list QPoint3d.t) (i : nat) (p : QPoint3d.t) :
  l !! i = Some p →
  flat_map packed3d l !! (i * 3)%nat = Some (ToUint16 (QPoint3d.x p)) ∧
  flat_map packed3d l !! (i * 3 + 1)%nat = Some (ToUint16 (QPoint3d.y p)) ∧
  flat_map packed3d l !! (i * 3 + 2)%nat = Some (ToUint16 (QPoint3d.z p)).
Proof.
  revert i. induction l as [|a l IH]; intros i Hp; [discriminate|].
  destruct i as [|i]; simpl in *.
  - injection Hp as ->. repeat split; reflexivity.
  - apply IH. exact Hp.
Qed.

Lemma packed3d_length (l : list QPoint3d.t) :
  length (flat_map packed3d l) = (length l * 3)%nat.
Proof. induction l as [|a l IH]; simpl; [reflexivity|]. now rewrite IH. Qed.

Lemma QPoint2dList_toTypedArray_eq (l : QPoint2dList.t) :
  QPoint2dList.toTypedArray l = Return (flat_map packed2d (QPoint2dList._list l)).
Proof.
  destruct (QPoint2dList_toTypedArray_spec l) as (a & -> & Hlen & Hlook). f_equal.
  apply (list_eq_same_length _ _ (QPoint2dList.length l * 2)%nat);
    [apply packed2d_length|exact Hlen|].
  intros k e e' Hk He He'.
  pose proof (Nat.div_mod_eq k 2) as Hdm.
  pose proof (Nat.mod_upper_bound k 2 ltac:(lia)) as Hm.
  assert (Hj : (k / 2 < QPoint2dList.length l)%nat) by lia.
  destruct (lookup_lt_is_Some_2 (QPoint2dList._list l) (k / 2) Hj) as [p Hp].
  destruct (Hlook _ _ Hp) as [Hx Hy].
  destruct (packed2d_lookup _ _ _ Hp) as [Hx' Hy'].
  assert (Hcase : k = (k / 2 * 2)%nat ∨ k = (k / 2 * 2 + 1)%nat) by lia.
  destruct Hcase as [E|E]; rewrite <- E in *; congruence.
Qed.

Lemma QPoint3dList_toTypedArray_eq (l : QPoint3dList.t) :
  QPoint3dList.toTypedArray l = Return (flat_map packed3d (QPoint3dList._list l)).
Proof.
  destruct (QPoint3dList_toTypedArray_spec l) as (a & -> & Hlen & Hlook). f_equal.
  apply (list_eq_same_length _ _ (QPoint3dList.length l * 3)%nat);
    [apply packed3d_length|exact Hlen|].
  intros k e e' Hk He He'.
  pose proof (Nat.div_mod_eq k 3) as Hdm.
  pose proof (Nat.mod_upper_bound k 3 ltac:(lia)) as Hm.
  assert (Hj : (k / 3 < QPoint3dList.length l)%nat) by lia.
  destruct (lookup_lt_is_Some_2 (QPoint3dList._list l) (k / 3) Hj) as [p Hp].
  destruct (Hlook _ _ Hp) as (Hx & Hy & Hz).
  destruct (packed3d_lookup _ _ _ Hp) as (Hx' & Hy' & Hz').
  assert (Hcase : k = (k / 3 * 3)%nat ∨ k = (k / 3 * 3 + 1)%nat ∨ k = (k / 3 * 3 + 2)%nat)
    by lia.
  destruct Hcase as [E|[E|E]]; rewrite <- E in *; congruence.
Qed.

Lemma ToUint16_inj (a b : number) :
  Quantization.isQuantized a = true → Quantization.isQuantized b = true →
  ToUint16 a = ToUint16 b → a == b.
Proof.
  intros Ha Hb E. rewrite <- (ToUint16_quantized a Ha), <- (ToUint16_quantized b Hb).
  now rewrite E.
Qed.

End PackedBuffer.


(** X18. The export loses nothing: two lists whose points satisfy the
    invariant and whose buffers are equal hold the same number of points
    with the same components, in the same order. *)
Theorem toTypedArray_injective :
  (∀ l l' : QPoint2dList.t,
     Forall QPoint2d_valid (QPoint2dList._list l) →
     Forall QPoint2d_valid (QPoint2dList._list l') →
     QPoint2dList.toTypedArray l = QPoint2dList.toTypedArray l' →
     Forall2 same2d (QPoint2dList._list l) (QPoint2dList._list l')) ∧
  (∀ l l' : QPoint3dList.t,
     Forall QPoint3d_valid (QPoint3dList._list l) →
     Forall QPoint3d_valid (QPoint3dList._list l') →
     QPoint3dList.toTypedArray l = QPoint3dList.toTypedArray l' →
     Forall2 same3d (QPoint3dList._list l) (QPoint3dList._list l')).
Proof.
  split.
  - intros [p1 l1] [p2 l2]. rewrite !QPoint2dList_toTypedArray_eq. simpl.
    intros Hv1 Hv2 E. injection E as E. clear p1 p2.
    revert l2 Hv2 E. induction Hv1 as [|a l1 [Hax Hay] Hv1 IH]; intros l2 Hv2 E.
    + destruct l2; [constructor|discriminate].
    + destruct Hv2 as [|b l2 [Hbx Hby] Hv2]; [discriminate|].
      simpl in E. injection E as Ex Ey E. constructor.
      * split; now apply ToUint16_inj.
      * now apply IH.
  - intros [p1 l1] [p2 l2]. rewrite !QPoint3dList_toTypedArray_eq. simpl.
    intros Hv1 Hv2 E. injection E as E. clear p1 p2.
    revert l2 Hv2 E. induction Hv1 as [|a l1 (Hax & Hay & Haz) Hv1 IH]; intros l2 Hv2 E.
    + destruct l2; [constructor|discriminate].
    + destruct Hv2 as [|b l2 (Hbx & Hby & Hbz) Hv2]; [discriminate|].
      simpl in E. injection E as Ex Ey Ez E. constructor.
      * repeat split; now apply ToUint16_inj.
      * now apply IH.
Qed.

Lemma toTypedArray_injective_witness :
  Forall2 same2d (QPoint2dList._list ten_list2d)
    (QPoint2dList._list
       (QPoint2dList.mk QParams2d.new [QPoint2d.mk 32768 32768; QPoint2d.mk 65535 0])).
Proof.
  apply (proj1 toTypedArray_injective ten_list2d
           (QPoint2dList.mk QParams2d.new
              [QPoint2d.mk 32768 32768; QPoint2d.mk 65535 0])).
  - repeat constructor; reflexivity.
  - repeat constructor; reflexivity.
  - vm_compute. reflexivity.
Defined.

(** ** Lists: re-basing and the invariant *)

Section RebaseAgain.


Lemma rebase2d_valid (old new : QParams2d.t) (p : QPoint2d.t) :
  QPoint2d_valid (rebase2d old new p) ∧ keeps2d new (rebase2d old new p).
Proof.
  split; split; first [ apply isQuantized_quantize | apply keeps_axis_quantize ].
Qed.

Lemma rebase3d_valid (old new : QParams3d.t) (p : QPoint3d.t) :
  QPoint3d_valid (rebase3d old new p) ∧ keeps3d new (rebase3d old new p).
Proof.
  split; repeat split; first [ apply isQuantized_quantize | apply keeps_axis_quantize ].
Qed.

Lemma QParams2d_copyFrom_eq (src this : QParams2d.t) : QParams2d.copyFrom src this = src.
Proof. destruct src as [[ox oy] [sx sy]]. reflexivity. Qed.

Lemma QParams3d_copyFrom_eq (src this : QParams3d.t) : QParams3d.copyFrom src this = src.
Proof. destruct src as [[ox oy oz] [sx sy sz]]. reflexivity. Qed.

End RebaseAgain.





(** The invariant of a list survives each mutating call that returns. *)
Lemma call2d_run_valid (c : call2d) (l l' : QPoint2dList.t) :
  Forall QPoint2d_valid (QPoint2dList._list l) → call2d_run true c l = Return l' →
  Forall QPoint2d_valid (QPoint2dList._list l').
Proof.
  intros Hv. destruct c as [pt|qpt| |params|params]; simpl.
  - destruct (QPoint2dList_add_eq true pt l) as (q & -> & Hq & _).
    intros H. injection H as <-. simpl. apply Forall_app. split; [exact Hv|].
    now constructor.
  - unfold QPoint2dList.push. rewrite QPoint2d_clone_enabled.
    destruct (Quantization.isQuantized (QPoint2d.x qpt)) eqn:Ex;
      destruct (Quantization.isQuantized (QPoint2d.y qpt)) eqn:Ey; simpl;
      try discriminate.
    intros H. injection H as <-. simpl. apply Forall_app. split; [exact Hv|].
    constructor; [now split|constructor].
  - intros H. injection H as <-. constructor.
  - intros H. injection H as <-. constructor.
  - rewrite QPoint2dList_requantize_map. intros H. injection H as <-. simpl.
    apply Forall_fmap, Forall_forall. intros p _. apply rebase2d_valid.
Qed.

Lemma call3d_run_valid (c : call3d) (l l' : QPoint3dList.t) :
  Forall QPoint3d_valid (QPoint3dList._list l) → call3d_run true c l = Return l' →
  Forall QPoint3d_valid (QPoint3dList._list l').
Proof.
  intros Hv. destruct c as [pt|qpt| |params|params]; simpl.
  - destruct (QPoint3dList_add_eq true pt l) as (q & -> & Hq & _).
    intros H. injection H as <-. simpl. apply Forall_app. split; [exact Hv|].
    now constructor.
  - unfold QPoint3dList.push. rewrite QPoint3d_clone_enabled.
    destruct (Quantization.isQuantized (QPoint3d.x qpt)) eqn:Ex;
      destruct (Quantization.isQuantized (QPoint3d.y qpt)) eqn:Ey;
      destruct (Quantization.isQuantized (QPoint3d.z qpt)) eqn:Ez; simpl;
      try discriminate.
    intros H. injection H as <-. simpl. apply Forall_app. split; [exact Hv|].
    constructor; [now repeat split|constructor].
  - intros H. injection H as <-. constructor.
  - intros H. injection H as <-. constructor.
  - rewrite QPoint3dList_requantize_map. intros H. injection H as <-. simpl.
    apply Forall_fmap, Forall_forall. intros p _. apply rebase3d_valid.
Qed.

(** X22. With assertions enabled the invariant is a property of every
    list: whatever sequence of [add], [push], [clear], [reset] and
    [requantize] calls is run on a new list, if it returns, every point of
    the list holds integers of the grid. *)
Theorem list_invariant :
  (∀ (cs : list call2d) (params : QParams2d.t) (l : QPoint2dList.t),
     calls2d_run true cs (QPoint2dList.new params) = Return l →
     Forall QPoint2d_valid (QPoint2dList._list l)) ∧
  (∀ (cs : list call3d) (params : QParams3d.t) (l : QPoint3dList.t),
     calls3d_run true cs (QPoint3dList.new params) = Return l →
     Forall QPoint3d_valid (QPoint3dList._list l)).
Proof.
  split.
  - intros cs params. assert (H0 : Forall QPoint2d_valid
                                     (QPoint2dList._list (QPoint2dList.new params)))
      by constructor.
    revert H0. generalize (QPoint2dList.new params).
    induction cs as [|c cs IH]; intros l0 H0 l; simpl.
    + intros H. now injection H as <-.
    + destruct (call2d_run true c l0) as [l1|e|] eqn:E; simpl; try discriminate.
      apply IH. now apply (call2d_run_valid c l0 l1).
  - intros cs params. assert (H0 : Forall QPoint3d_valid
                                     (QPoint3dList._list (QPoint3dList.new params)))
      by constructor.
    revert H0. generalize (QPoint3dList.new params).
    induction cs as [|c cs IH]; intros l0 H0 l; simpl.
    + intros H. now injection H as <-.
    + destruct (call3d_run true c l0) as [l1|e|] eqn:E; simpl; try discriminate.
      apply IH. now apply (call3d_run_valid c l0 l1).
Qed.

Lemma list_invariant_witness :
  Forall QPoint2d_valid
    (QPoint2dList._list
       (QPoint2dList.mk (QParams2d.fromRange single_range2d None)
          [QPoint2d.mk 0 0; QPoint2d.mk 0 0; QPoint2d.mk 0 0])).
Proof.
  apply (proj1 list_invariant
           [Add2d (Point2d.create 5 5); Clear2d; Add2d (Point2d.create 10 0);
            Push2d (QPoint2d.mk 7 9); Requantize2d (QParams2d.fromRange single_range2d None);
            Add2d (Point2d.create 3 3)]
           (QParams2d.fromRange ten_range2d None)).
  vm_compute. reflexivity.
Defined.

(** X23. The life of a list: a new list is empty and holds a copy of the
    record it was given; [clear] empties the list and keeps its record;
    [reset] empties it and adopts the new record; the buffer of an emptied
    list is empty. *)
Theorem list_lifecycle :
  (∀ (params : QParams2d.t) (l : QPoint2dList.t),
     QPoint2dList.new params = QPoint2dList.mk params [] ∧
     QPoint2dList.clear l = QPoint2dList.mk (QPoint2dList.params l) [] ∧
     QPoint2dList.reset params l = QPoint2dList.new params ∧
     QPoint2dList.length (QPoint2dList.clear l) = 0%nat ∧
     QPoint2dList.toTypedArray (QPoint2dList.clear l) = Return []) ∧
  (∀ (params : QParams3d.t) (l : QPoint3dList.t),
     QPoint3dList.new params = QPoint3dList.mk params [] ∧
     QPoint3dList.clear l = QPoint3dList.mk (QPoint3dList.params l) [] ∧
     QPoint3dList.reset params l = QPoint3dList.new params ∧
     QPoint3dList.length (QPoint3dList.clear l) = 0%nat ∧
     QPoint3dList.toTypedArray (QPoint3dList.clear l) = Return []).
Proof.
  split; intros params l.
  - assert (Hnew : QPoint2dList.new params = QPoint2dList.mk params []).
    { unfold QPoint2dList.new, QParams2d.clone. now rewrite QParams2d_copyFrom_eq. }
    split; [exact Hnew|]. split; [reflexivity|]. split.
    + rewrite Hnew. unfold QPoint2dList.reset. simpl. now rewrite QParams2d_copyFrom_eq.
    + split; reflexivity.
  - assert (Hnew : QPoint3dList.new params = QPoint3dList.mk params []).
    { unfold QPoint3dList.new, QParams3d.clone. now rewrite QParams3d_copyFrom_eq. }
    split; [exact Hnew|]. split; [reflexivity|]. split.
    + rewrite Hnew. unfold QPoint3dList.reset. simpl. now rewrite QParams3d_copyFrom_eq.
    + split; reflexivity.
Qed.

(** ** The title of a cluster *)

Section ClusterTitle.

Lemma string_app_nil_r (a : string) : a +:+ "" = a.
Proof. induction a as [|c a IH]; [reflexivity|]. change (String c (a +:+ "") = String c a). now rewrite IH. Qed.

Lemma string_app_assoc (a b c : string) : (a +:+ b) +:+ c = a +:+ (b +:+ c).
Proof.
  induction a as [|x a IH]; [reflexivity|].
  change (String x ((a +:+ b) +:+ c) = String x (a +:+ (b +:+ c))). now rewrite IH.
Qed.

Lemma string_app_nonempty (a b : string) : a ≠ "" → String.eqb (a +:+ b) "" = false.
Proof. destruct a as [|x a]; [congruence|]. reflexivity. Qed.

(** Past the tenth marker the callback changes nothing. *)
Lemma forEach_past (markers : list string) (index : nat) (title : string) :
  (10 <= index)%nat → SectionLocationClusterMarker.forEach markers index title = title.
Proof.
  revert index title. induction markers as [|m ms IH]; intros index title Hi; [reflexivity|].
  simpl. rewrite IH by lia. unfold SectionLocationClusterMarker.callback.
  assert (Nat.ltb index SectionLocationClusterMarker.maxLen = false) as ->
    by (apply Nat.ltb_ge; exact Hi).
  reflexivity.
Qed.

Lemma forEach_app (ms ms' : list string) (index : nat) (title : string) :
  SectionLocationClusterMarker.forEach (ms ++ ms') index title
  = SectionLocationClusterMarker.forEach ms' (index + length ms)
      (SectionLocationClusterMarker.forEach ms index title).
Proof.
  revert index title. induction ms as [|m ms IH]; intros index title; simpl.
  - now rewrite Nat.add_0_r.
  - rewrite IH. f_equal. lia.
Qed.

Lemma concat_separated (m : string) (ms : list string) :
  String.concat "<br>" (m :: ms) = m +:+ separated ms.
Proof.
  revert m. induction ms as [|m' ms IH]; intros m.
  - simpl. now rewrite string_app_nil_r.
  - change (m +:+ "<br>" +:+ String.concat "<br>" (m' :: ms) = m +:+ separated (m' :: ms)).
    now rewrite IH.
Qed.

Lemma forEach_separated (ms : list string) (index : nat) (title : string) :
  (index + length ms <= 10)%nat → Forall (λ m, m ≠ "") ms → title ≠ "" →
  SectionLocationClusterMarker.forEach ms index title = title +:+ separated ms.
Proof.
  revert index title. induction ms as [|m ms IH]; intros index title Hlen Hne Ht.
  - simpl. now rewrite string_app_nil_r.
  - simpl in Hlen. simpl SectionLocationClusterMarker.forEach.
    unfold SectionLocationClusterMarker.callback.
    assert (Nat.ltb index SectionLocationClusterMarker.maxLen = true) as ->
      by (apply Nat.ltb_lt; unfold SectionLocationClusterMarker.maxLen; lia).
    assert (String.eqb title "" = false) as -> by now apply String.eqb_neq.
    cbn [negb]. rewrite IH.
    + change (separated (m :: ms)) with ("<br>" +:+ m +:+ separated ms).
      now rewrite !string_app_assoc.
    + lia.
    + now inversion Hne.
    + intros E. apply (f_equal (λ t, String.eqb t "")) in E.
      rewrite string_app_assoc, string_app_nonempty in E by assumption. discriminate.
Qed.

Lemma title_take (markers : list string) :
  SectionLocationClusterMarker.title markers
  = SectionLocationClusterMarker.title (take 10 markers) +:+ more_markers markers.
Proof.
  unfold SectionLocationClusterMarker.title, more_markers,
    SectionLocationClusterMarker.maxLen.
  assert (Hshort : Nat.ltb 10 (length (take 10 markers)) = false).
  { apply Nat.ltb_ge. rewrite length_take. lia. }
  rewrite Hshort.
  assert (E : SectionLocationClusterMarker.forEach markers 0 ""
              = SectionLocationClusterMarker.forEach (take 10 markers) 0 "").
  { rewrite <- (take_drop 10 markers) at 1. rewrite forEach_app.
    destruct (Nat.le_gt_cases 10 (length markers)) as [Hl|Hl].
    - apply forEach_past. rewrite length_take. lia.
    - rewrite drop_ge by lia. reflexivity. }
  rewrite E. destruct (Nat.ltb 10 (length markers)); [reflexivity|].
  now rewrite string_app_nil_r.
Qed.

End ClusterTitle.

(** X24. The title of a cluster names at most ten markers: it is the title
    of the first ten markers, followed by ["<br>..."] exactly when the
    cluster has more than ten; markers after the tenth never show. *)
Theorem cluster_title_first_ten :
  (∀ markers : list string,
     SectionLocationClusterMarker.title markers
     = SectionLocationClusterMarker.title (take 10 markers) +:+ more_markers markers) ∧
  (∀ ten rest : list string,
     length ten = 10%nat → rest ≠ [] →
     SectionLocationClusterMarker.title (ten ++ rest)
     = SectionLocationClusterMarker.title ten +:+ "<br>...").
Proof.
  split; [apply title_take|].
  intros ten rest Hlen Hrest. rewrite (title_take (ten ++ rest)).
  rewrite take_app_length' by (symmetry; exact Hlen). f_equal.
  unfold more_markers. rewrite length_app, Hlen.
  destruct rest as [|r rest]; [congruence|]. reflexivity.
Qed.

Lemma cluster_title_first_ten_witness :
  SectionLocationClusterMarker.title
    (["a"; "b"; "c"; "d"; "e"; "f"; "g"; "h"; "i"; "j"] ++ ["k"; "l"])
  = SectionLocationClusterMarker.title ["a"; "b"; "c"; "d"; "e"; "f"; "g"; "h"; "i"; "j"]
    +:+ "<br>...".
Proof.
  apply (proj2 cluster_title_first_ten
           ["a"; "b"; "c"; "d"; "e"; "f"; "g"; "h"; "i"; "j"] ["k"; "l"]).
  - reflexivity.
  - discriminate.
Defined.

(** X25. When none of the first ten titles is empty, the title of a
    cluster is these titles joined with ["<br>"], followed by ["<br>..."]
    when the cluster has more than ten markers. *)
Theorem cluster_title_joined (markers : list string) :
  Forall (λ m, m ≠ "") (take 10 markers) →
  SectionLocationClusterMarker.title markers
  = String.concat "<br>" (take 10 markers) +:+ more_markers markers.
Proof.
  intros Hne. rewrite title_take. f_equal.
  unfold SectionLocationClusterMarker.title, SectionLocationClusterMarker.maxLen.
  assert (Hshort : Nat.ltb 10 (length (take 10 markers)) = false).
  { apply Nat.ltb_ge. rewrite length_take. lia. }
  rewrite Hshort.
  assert (Hlen : (length (take 10 markers) <= 10)%nat) by (rewrite length_take; lia).
  revert Hne Hlen. generalize (take 10 markers). intros [|m ms] Hne Hlen; [reflexivity|].
  rewrite concat_separated. simpl SectionLocationClusterMarker.forEach.
  inversion Hne as [|? ? Hm Hms]; subst.
  rewrite forEach_separated; [reflexivity| simpl in Hlen; lia | assumption | assumption].
Qed.

Lemma cluster_title_joined_witness :
  SectionLocationClusterMarker.title ["Plan"; "Detail"; "Elevation"]
  = String.concat "<br>" (take 10 ["Plan"; "Detail"; "Elevation"])
    +:+ more_markers ["Plan"; "Detail"; "Elevation"].
Proof.
  apply (cluster_title_joined ["Plan"; "Detail"; "Elevation"]).
  repeat constructor; discriminate.
Defined.

(** * Doubles *)

(** ** Facts about binary64 values and comparisons *)

Section DoubleFacts.

Local Open Scope Z_scope.

Lemma digits2_pos_lt (m : positive) : Zpos m < 2 ^ Zpos (digits2_pos m).
Proof.
  induction m as [m IH|m IH|]; simpl digits2_pos;
    rewrite ?Pos2Z.inj_succ, ?Z.pow_succ_r by lia; lia.
Qed.

Lemma digits2_pos_ge (m : positive) : 2 ^ (Zpos (digits2_pos m) - 1) <= Zpos m.
Proof.
  induction m as [m IH|m IH|]; simpl digits2_pos; [| |simpl; lia];
    rewrite Pos2Z.inj_succ;
    replace (Z.succ (Zpos (digits2_pos m)) - 1) with (Z.succ (Zpos (digits2_pos m) - 1)) by lia;
    rewrite Z.pow_succ_r by lia; lia.
Qed.

(** What validity says of a finite double: at most 53 digits, exactly 53
    above the smallest exponent, and an exponent between -1074 and 971. *)
Lemma valid_finite (s : bool) (m : positive) (e : Z) :
  valid_binary (S754_finite s m e) = true →
  Zpos (digits2_pos m) <= 53 ∧ -1074 <= e <= 971 ∧
  (-1074 < e → Zpos (digits2_pos m) = 53).
Proof.
  unfold SpecFloat.valid_binary, bounded, canonical_mantissa, fexp, SpecFloat.emin, prec, emax.
  rewrite andb_true_iff, Z.eqb_eq, Z.leb_le. lia.
Qed.

Lemma valid_finite_lt (s : bool) (m : positive) (e : Z) :
  valid_binary (S754_finite s m e) = true → Zpos m < 2 ^ 53.
Proof.
  intros H. apply valid_finite in H as (Hd & _).
  pose proof (digits2_pos_lt m) as Hm.
  assert (2 ^ Zpos (digits2_pos m) <= 2 ^ 53) by (apply Z.pow_le_mono_r; lia).
  lia.
Qed.

Lemma SFcompare_refl (x : spec_float) : x ≠ S754_nan → SFcompare x x = Some Eq.
Proof.
  destruct x as [s|s| |s m e]; intros H; try congruence; simpl.
  - reflexivity.
  - now destruct s.
  - destruct s; rewrite Z.compare_refl, Pos.compare_cont_refl; reflexivity.
Qed.

Lemma SFcompare_antisym (x y : spec_float) (c : comparison) :
  SFcompare x y = Some c → SFcompare y x = Some (CompOpp c).
Proof.
  destruct x as [s|s| |s m e]; destruct y as [s'|s'| |s' m' e']; simpl;
    try discriminate; intros H; injection H as <-;
    try (destruct s; destruct s'; reflexivity); try (destruct s; reflexivity);
    try (destruct s'; reflexivity); try reflexivity.
  destruct s; destruct s'; try reflexivity;
    rewrite (Z.compare_antisym e e'); destruct (e ?= e'); simpl; try reflexivity;
    pose proof (Pos.compare_cont_antisym m m' Eq) as A; simpl in A; rewrite <- A;
    destruct (Pos.compare_cont Eq m m'); reflexivity.
Qed.

(** Equal finite doubles are the same double. *)
Lemma SFcompare_Eq_finite (s s' : bool) (m m' : positive) (e e' : Z) :
  SFcompare (S754_finite s m e) (S754_finite s' m' e') = Some Eq →
  S754_finite s m e = S754_finite s' m' e'.
Proof.
  simpl. destruct s; destruct s'; try discriminate;
    destruct (e ?= e') eqn:Ee; try discriminate;
    apply Z.compare_eq in Ee; subst e';
    change (Pos.compare_cont Eq m m') with (Pos.compare m m');
    destruct (Pos.compare m m') eqn:Em; try discriminate;
    apply Pos.compare_eq in Em; subst m'; reflexivity.
Qed.

End DoubleFacts.
